(** * Template validation for Flake FHS: a shallow embedding of
    [templates-validators.py] and the properties of its validation pipeline.

    [Str] and [Re] give the Python text operations the validator calls
    ([in], [str.strip], [str.replace], slicing, [re.findall] for the one
    pattern the program uses), [Path] the text of a joined [pathlib]
    path.  The data model and the outside world (file
    system, temporary directories, the [nix] processes, [json.loads])
    follow.  [TemplateValidator] holds the methods of the class of that
    name, one definition per method.  [Spec] has the words of the
    specification, [Examples] concrete templates and worlds; the facts
    about the text operations and the properties of the validator come
    last. *)

From Stdlib Require Import Ascii ZArith Bool Lia.
From Equations Require Import Equations.
From Equations.Prop Require Import Logic.
From stdpp Require Import gmap strings.

(** ** Python [str] operations

    Text is a [string]: a sequence of 8-bit code points. *)
Module Str.

(** The double quote, code point 34. *)
Definition dquote : ascii := "034"%char.

(** [str.isspace] on one character, which is also the class [\s] of [re] on
    text patterns: TAB..CR, FS..US, SPACE, NEL and NBSP below code point 256. *)
Definition isspace (c : ascii) : bool :=
  let n := Ascii.nat_of_ascii c in
  ((9 <=? n) && (n <=? 13)) || ((28 <=? n) && (n <=? 32))
  || (n =? 133) || (n =? 160).

(** [s.startswith(p)] *)
Fixpoint startswith (p s : string) : bool :=
  match p, s with
  | EmptyString, _ => true
  | String a p', String b s' => Ascii.eqb a b && startswith p' s'
  | String _ _, EmptyString => false
  end.

(** What follows the prefix [p] in [s], when [s] starts with [p]. *)
Fixpoint after_prefix (p s : string) : option string :=
  match p, s with
  | EmptyString, _ => Some s
  | String a p', String b s' =>
      if Ascii.eqb a b then after_prefix p' s' else None
  | String _ _, EmptyString => None
  end.

(** [needle in hay] on two strings: [needle] occurs at some position. *)
Fixpoint contains (needle hay : string) : bool :=
  startswith needle hay ||
  match hay with
  | EmptyString => false
  | String _ rest => contains needle rest
  end.

(** [s.lstrip()] *)
Fixpoint lstrip (s : string) : string :=
  match s with
  | EmptyString => EmptyString
  | String c rest => if isspace c then lstrip rest else s
  end.

(** [s.rstrip()] *)
Fixpoint rstrip (s : string) : string :=
  match s with
  | EmptyString => EmptyString
  | String c rest =>
      match rstrip rest with
      | EmptyString => if isspace c then EmptyString else String c EmptyString
      | r => String c r
      end
  end.

(** [s.strip()] *)
Definition strip (s : string) : string := rstrip (lstrip s).

(** [s[:n]] for [n >= 0] *)
Fixpoint take (n : nat) (s : string) : string :=
  match n, s with
  | S k, String c rest => String c (take k rest)
  | _, _ => EmptyString
  end.

(** [sep.join(parts)] *)
Fixpoint join (sep : string) (parts : list string) : string :=
  match parts with
  | [] => EmptyString
  | [p] => p
  | p :: rest => p +:+ sep +:+ join sep rest
  end.

(** [s.replace("", new)]: [new] before every character and at the end. *)
Fixpoint interleave (new s : string) : string :=
  match s with
  | EmptyString => new
  | String c rest => new +:+ String c (interleave new rest)
  end.

(** The last character of a string, if it has one. *)
Fixpoint last_char (s : string) : option ascii :=
  match s with
  | EmptyString => None
  | String c EmptyString => Some c
  | String _ rest => last_char rest
  end.

(** The first character of a string, if it has one. *)
Definition first_char (s : string) : option ascii :=
  match s with
  | EmptyString => None
  | String c _ => Some c
  end.

(** Every character of [s] satisfies [P]. *)
Fixpoint all_chars (P : ascii → bool) (s : string) : bool :=
  match s with
  | EmptyString => true
  | String c rest => P c && all_chars P rest
  end.

(** A text that neither starts nor ends with white space (and is not
    empty): what [strip] leaves alone. *)
Definition unpadded (p : string) : Prop :=
  (∃ c, first_char p = Some c ∧ isspace c = false) ∧
  (∃ c, last_char p = Some c ∧ isspace c = false).

(** Where the text goes on after an occurrence of the non-empty [old] at
    its start. *)
Definition occurrence_at (old s : string) : option string :=
  match old with
  | EmptyString => None
  | String _ _ => after_prefix old s
  end.

Lemma after_prefix_length p s rest :
  after_prefix p s = Some rest →
  String.length s = String.length p + String.length rest.
Proof.
  revert s; induction p as [|a p IH]; intros [|b s] H; simplify_eq/=; trivial.
  destruct (Ascii.eqb a b); [|congruence].
  rewrite (IH _ H). reflexivity.
Qed.

Lemma occurrence_at_shorter old s rest :
  occurrence_at old s = Some rest → String.length rest < String.length s.
Proof.
  destruct old as [|a old]; [discriminate|]. unfold occurrence_at.
  intros H%after_prefix_length. simpl in H. lia.
Qed.

(** [s.replace(old, new)] for a non-empty [old]: the occurrences of [old],
    found from the left and not overlapping, each give way to [new]. *)
Equations? replace_occurrences (old new s : string) : string
  by wf (String.length s) lt :=
  replace_occurrences old new EmptyString := EmptyString;
  replace_occurrences old new (String c rest)
    with inspect (occurrence_at old (String c rest)) := {
    | exist _ (Some after) Hocc := new +:+ replace_occurrences old new after;
    | exist _ None _ := String c (replace_occurrences old new rest) }.
Proof.
  - by apply occurrence_at_shorter in Hocc.
  - simpl. lia.
Qed.

(** [s.replace(old, new)] *)
Definition replace (old new s : string) : string :=
  match old with
  | EmptyString => interleave new s
  | String _ _ => replace_occurrences old new s
  end.

End Str.

(** ** The one regular expression of the program

    [re.findall(url_pattern, content)] with the pattern
    [flake-fhs\.url\s*=\s*Q([^Q]+)Q], where Q stands for the double quote.
    No part of the pattern can give back what it took and have the rest
    match ([\s*] stops before a character that is no space, the class stops
    before a double quote), so one pass from the left decides a match. *)
Module Re.
Import Str.

(** The longest run of characters other than the double quote at the start
    of [s], and the text from there on: the greedy run of the class. *)
Fixpoint span_unquoted (s : string) : string * string :=
  match s with
  | EmptyString => (EmptyString, EmptyString)
  | String c rest =>
      if Ascii.eqb c dquote then (EmptyString, s)
      else let '(v, r) := span_unquoted rest in (String c v, r)
  end.

(** The text after [c] when [s] starts with it. *)
Definition expect (c : ascii) (s : string) : option string :=
  match s with
  | String a rest => if Ascii.eqb a c then Some rest else None
  | EmptyString => None
  end.

(** A match of the pattern that begins at the first character of [s]: the
    captured group and the text after the match. *)
Definition match_flake_url (s : string) : option (string * string) :=
  s1 ← after_prefix "flake-fhs.url" s;
  s2 ← expect "="%char (lstrip s1);
  s3 ← expect dquote (lstrip s2);
  match span_unquoted s3 with
  | (String v0 v, String _ rest) => Some (String v0 v, rest)
  | _ => None
  end.

Lemma span_unquoted_length s v r :
  span_unquoted s = (v, r) → String.length s = String.length v + String.length r.
Proof.
  revert v r; induction s as [|c s IH]; intros v r H; simpl in H.
  - injection H as <- <-. reflexivity.
  - destruct (Ascii.eqb c dquote).
    + injection H as <- <-. reflexivity.
    + destruct (span_unquoted s) as [v' r'] eqn:E.
      injection H as <- <-. simpl. by rewrite (IH _ _ eq_refl).
Qed.

Lemma lstrip_length s : String.length (lstrip s) ≤ String.length s.
Proof.
  induction s as [|c s IH]; simpl; [lia|]. destruct (isspace c); simpl; lia.
Qed.

Lemma expect_length c s rest :
  expect c s = Some rest → String.length s = S (String.length rest).
Proof.
  destruct s as [|a s]; simpl; [done|].
  destruct (Ascii.eqb a c); by intros [= ->].
Qed.

Lemma match_flake_url_shorter s v rest :
  match_flake_url s = Some (v, rest) → String.length rest < String.length s.
Proof.
  unfold match_flake_url. intros H.
  destruct (after_prefix _ s) as [s1|] eqn:E1; simpl in H; [|done].
  destruct (expect _ (lstrip s1)) as [s2|] eqn:E2; simpl in H; [|done].
  destruct (expect _ (lstrip s2)) as [s3|] eqn:E3; simpl in H; [|done].
  destruct (span_unquoted s3) as [w r] eqn:E4.
  destruct w as [|v0 w]; [done|]. destruct r as [|q r]; [done|]. simplify_eq.
  apply after_prefix_length in E1. apply expect_length in E2, E3.
  apply span_unquoted_length in E4.
  pose proof (lstrip_length s1). pose proof (lstrip_length s2). simpl in *. lia.
Qed.

(** [re.findall] for the pattern: the matches found from the left, each
    search starting where the previous match ended; with one group in the
    pattern the result lists what the group captured. *)
Equations? findall_flake_url (s : string) : list string
  by wf (String.length s) lt :=
  findall_flake_url EmptyString := [];
  findall_flake_url (String c rest)
    with inspect (match_flake_url (String c rest)) := {
    | exist _ (Some (v, after)) Hm := v :: findall_flake_url after;
    | exist _ None _ := findall_flake_url rest }.
Proof.
  - by apply match_flake_url_shorter in Hm.
  - simpl. lia.
Qed.

(** *** What the pattern says, as a relation

    [assignment s v rest]: [s] starts with the words [flake-fhs.url], white
    space, an equals sign, white space and a value [v] between double
    quotes, [v] not empty and free of double quotes; [rest] follows. *)
Definition unquoted (c : ascii) : bool := negb (Ascii.eqb c dquote).

Definition assignment (s v rest : string) : Prop :=
  ∃ w1 w2,
    s = "flake-fhs.url" +:+ w1 +:+ "=" +:+ w2
          +:+ String dquote (v +:+ String dquote rest)
    ∧ all_chars isspace w1 = true ∧ all_chars isspace w2 = true
    ∧ v ≠ EmptyString ∧ all_chars unquoted v = true.

(** [Findall s vs]: going through [s] from the left, [vs] are the values of
    the assignments met, in order of appearance; after an assignment the
    search goes on behind it, elsewhere one character further. *)
Inductive Findall : string → list string → Prop :=
  | Findall_end : Findall EmptyString []
  | Findall_match s v rest vs :
      assignment s v rest → Findall rest vs → Findall s (v :: vs)
  | Findall_skip c s vs :
      (∀ v rest, ¬ assignment (String c s) v rest) →
      Findall s vs → Findall (String c s) vs.

End Re.

(** ** [pathlib] paths

    A path is the text that [str] gives for it on a POSIX system:
    [Path(a) / b] joins the two texts as [posixpath.join] does and keeps
    the root and the components that are neither empty nor a dot. *)
Module Path.

(** [s.split('/')] *)
Fixpoint split (s : string) : list string :=
  match s with
  | EmptyString => [EmptyString]
  | String c rest =>
      if Ascii.eqb c "/" then EmptyString :: split rest
      else match split rest with
           | piece :: pieces => String c piece :: pieces
           | [] => [String c EmptyString]
           end
  end.

(** [posixpath.splitroot], without the drive: the root (empty, one slash,
    or two slashes when the text starts with exactly two) and the rest. *)
Definition splitroot (p : string) : string * string :=
  match Str.after_prefix "//" p with
  | Some rest =>
      if Str.startswith "/" rest then ("/", String "/" rest) else ("//", rest)
  | None =>
      match Str.after_prefix "/" p with
      | Some rest => ("/", rest)
      | None => (EmptyString, p)
      end
  end.

(** The components of a relative text that a path keeps. *)
Definition parts (rel : string) : list string :=
  List.filter (λ x, negb (String.eqb x "") && negb (String.eqb x "."))
    (split rel).

(** [posixpath.join(a, b)] *)
Definition join (a b : string) : string :=
  if Str.startswith "/" b then b
  else match Str.last_char a with
       | None => b
       | Some c => if Ascii.eqb c "/" then a +:+ b else a +:+ "/" +:+ b
       end.

(** [str(Path(p))] *)
Definition normal (p : string) : string :=
  let '(root, rel) := splitroot p in
  match root +:+ Str.join "/" (parts rel) with
  | EmptyString => "."
  | s => s
  end.

(** [str(Path(a) / b)] *)
Definition joinpath (a b : string) : string := normal (join a b).

End Path.

(** ** Exceptions and results

    A function that can raise returns a [result]; [str e] is the text of
    [str(e)]. *)
Inductive exception_class :=
  | JSONDecodeError | TimeoutError | AttributeError | TypeError | OSError
  | OtherException.

#[global] Instance exception_class_eq_dec : EqDecision exception_class.
Proof. solve_decision. Defined.

Record exception := mk_exception { class_of : exception_class; str : string }.

Inductive result (A : Type) :=
  | Ok (a : A)
  | Raise (e : exception).
Arguments Ok {A} a.
Arguments Raise {A} e.

#[global] Instance result_ret : MRet result := @Ok.
#[global] Instance result_bind : MBind result := λ A B f m,
  match m with
  | Ok a => f a
  | Raise e => Raise e
  end.

(** [try: body except cls as e: handler(e)]; another class goes through. *)
Definition try_except {A} (body : result A) (cls : exception_class)
    (handler : exception → result A) : result A :=
  match body with
  | Ok a => Ok a
  | Raise e =>
      if decide (class_of e = cls) then handler e else Raise e
  end.

(** [try: body except Exception as e: handler(e)] *)
Definition try_except_all {A} (body : result A) (handler : exception → A) : A :=
  match body with
  | Ok a => a
  | Raise e => handler e
  end.

(** ** Data model *)

Inductive TestStatus := PASSED | FAILED | SKIPPED.

(** The payloads the program stores in a [details] dictionary. *)
Inductive value :=
  | VStr (s : string)
  | VInt (n : Z)
  | VList (items : list string).

Record TestResult := mkTestResult {
  name : string;
  status : TestStatus;
  message : string;
  details : option (gmap string value)
}.

Record TemplateValidationResult := mkTemplateValidationResult {
  template_name : string;
  overall_status : TestStatus;
  tests : list TestResult;
  error_message : option string
}.

(** [needle in v] for a string [needle]: substring of a string, member of a
    list, [TypeError] on an integer. *)
Definition value_contains (needle : string) (v : value) : result bool :=
  match v with
  | VStr s => Ok (Str.contains needle s)
  | VList items => Ok (bool_decide (needle ∈ items))
  | VInt _ => Raise (mk_exception TypeError "argument of type 'int' is not iterable")
  end.

(** [(details or {}).get(key, "")] *)
Definition details_get (details : option (gmap string value)) (key : string) : value :=
  default (VStr "") (default ∅ details !! key).

(** ** JSON documents as [json.loads] returns them *)
#[warnings="-register-all"]
Inductive json :=
  | JNull
  | JBool (b : bool)
  | JInt (n : Z)
  | JFloat (repr : string)
  | JString (s : string)
  | JArray (items : list json)
  | JObject (members : gmap string json).

(** [type(v).__name__] *)
Definition type_name (v : json) : string :=
  match v with
  | JNull => "NoneType"
  | JBool _ => "bool"
  | JInt _ => "int"
  | JFloat _ => "float"
  | JString _ => "str"
  | JArray _ => "list"
  | JObject _ => "dict"
  end.

(** [v.get(key, {})]: only a dictionary has the method. *)
Definition json_get (v : json) (key : string) : result json :=
  match v with
  | JObject members => Ok (default (JObject ∅) (members !! key))
  | _ => Raise (mk_exception AttributeError
                  ("'" +:+ type_name v +:+ "' object has no attribute 'get'"))
  end.

(** [len(v)]: strings, lists and dictionaries have a length. *)
Definition json_len (v : json) : result nat :=
  match v with
  | JString s => Ok (String.length s)
  | JArray items => Ok (length items)
  | JObject members => Ok (size members)
  | _ => Raise (mk_exception TypeError
                  ("object of type '" +:+ type_name v +:+ "' has no len()"))
  end.

(** ** The world outside the validator *)

(** The file [flake.nix] of a directory: absent, a text that [read] returns,
    or something there that raises when opened or decoded. *)
Inductive manifest_state :=
  | ManifestAbsent
  | ManifestText (content : string)
  | ManifestUnreadable (e : exception).

(** How [subprocess.run] ends. *)
Inductive process :=
  | Exited (returncode : Z) (stdout stderr : string)
  | TimeoutExpired
  | SpawnFailed (e : exception).

Record CompletedProcess := mkCompletedProcess {
  returncode : Z;
  stdout : string;
  stderr : string
}.

(** A template directory, by what a validation run observes of it:
    its manifest, whether copying its entries into the sandbox raises,
    whether writing the sandbox manifest raises, whether creating or
    removing the temporary directory raises, and how a command run in
    the sandbox (with the given sandbox manifest) ends. *)
Record template := mkTemplate {
  flake_nix : manifest_state;
  copy_error : option exception;
  write_error : option exception;
  tempdir_error : option exception;
  cleanup_error : option exception;
  subprocess_run : list string → manifest_state → process
}.

(** An entry of the templates directory. *)
Inductive entry :=
  | NotDirectory
  | Directory (t : template).

(** A path that should be a directory: nothing there, something that is
    no directory (on which [iterdir] raises [e]), or a directory with its
    entries by name. *)
Inductive dir_state :=
  | NoSuchPath
  | NotADirectory (e : exception)
  | DirectoryOf (entries : gmap string entry).

(** The world: [listdir] says what [exists] and [iterdir] find at the
    templates path, [stat] what [exists] and [is_dir] find at any other
    path, by its text.  The file system answers every such question; the
    two are not tied to each other, so what is proved holds whatever
    [stat] answers. *)
Record world := mkWorld {
  listdir : string → dir_state;
  json_loads : string → result json;
  stat : string → option entry
}.

(** ** The validator *)
Module TemplateValidator.

Record t := mk { templates_dir : string; project_root : string }.

Definition EXPECTED_GITHUB_URL : string := "github:luochen1990/flake-fhs".

Section methods.
Context (w : world) (self : t).

(** [_run_command]: a timeout becomes a [TimeoutError] naming the command. *)
Definition _run_command (tpl : template) (command : list string)
    (cwd : manifest_state) : result CompletedProcess :=
  match subprocess_run tpl command cwd with
  | Exited rc out err => Ok (mkCompletedProcess rc out err)
  | TimeoutExpired =>
      Raise (mk_exception TimeoutError
               ("Command timed out: " +:+ Str.join " " command))
  | SpawnFailed e => Raise e
  end.

Definition _find_flake_urls (content : string) : list string :=
  Re.findall_flake_url content.

Definition _check_template_uses_github_url (tpl : template) : TestResult :=
  try_except_all
    (match flake_nix tpl with
     | ManifestAbsent =>
         Ok (mkTestResult "github_url_check" FAILED
               "flake.nix not found in template" None)
     | ManifestUnreadable e => Raise e
     | ManifestText content =>
         if Str.contains EXPECTED_GITHUB_URL content then
           Ok (mkTestResult "github_url_check" PASSED
                 "Template uses correct GitHub URL" None)
         else
           Ok (mkTestResult "github_url_check" FAILED
                 ("Template does not use expected GitHub URL: "
                    +:+ EXPECTED_GITHUB_URL)
                 (Some {[ "found_urls" := VList (_find_flake_urls content) ]}))
     end)
    (λ e, mkTestResult "github_url_check" FAILED
            ("Error reading template file: " +:+ str e) None).

Definition _replace_github_with_local_path (content : string) : string :=
  let local_path := "path:" +:+ project_root self in
  Str.replace EXPECTED_GITHUB_URL local_path content.

(** [_create_temp_template], from an empty temporary directory: the answer
    and the manifest of the sandbox afterwards.  The copy brings the
    template's manifest; a copy that raises leaves a sandbox nothing reads
    afterwards. *)
Definition _create_temp_template (tpl : template)
    : (bool * option string) * manifest_state :=
  let failed (e : exception) :=
    (false, Some ("Error creating temporary template: " +:+ str e)) in
  match copy_error tpl with
  | Some e => (failed e, ManifestAbsent)
  | None =>
      match flake_nix tpl with
      | ManifestAbsent =>
          ((false, Some "flake.nix not found in template"), ManifestAbsent)
      | ManifestUnreadable e => (failed e, ManifestUnreadable e)
      | ManifestText content =>
          let modified_content := _replace_github_with_local_path content in
          match write_error tpl with
          | Some e => (failed e, ManifestText content)
          | None =>
              let content' := modified_content in
              if Str.contains "path:" content'
                 && negb (Str.contains EXPECTED_GITHUB_URL content')
              then ((true, None), ManifestText content')
              else ((false, Some "Failed to replace GitHub URL with local path"),
                    ManifestText content')
          end
      end
  end.

Definition flake_check_cmd : list string :=
  ["nix"; "--extra-experimental-features"; "nix-command";
   "--extra-experimental-features"; "flakes"; "flake"; "check";
   "--no-build"; "--quiet"].

Definition _run_flake_check (tpl : template) (temp_dir : manifest_state)
    : TestResult :=
  try_except_all
    (result ← _run_command tpl flake_check_cmd temp_dir;
     if negb (returncode result =? 0)%Z then
       let error_msg :=
         match stderr result with
         | EmptyString => "Unknown error"
         | err => Str.strip err
         end in
       if Str.contains "attribute 'mkFlake' missing" error_msg then
         Ok (mkTestResult "flake_check" FAILED
               "mkFlake function not found (local path issue)"
               (Some {[ "error" := VStr error_msg;
                        "suggestion" := VStr "This is expected with local path replacement in build environments" ]}))
       else if Str.contains "expected a set but found a function" error_msg then
         Ok (mkTestResult "flake_check" FAILED
               "lib evaluation error (utils/lib issue)"
               (Some {[ "error" := VStr error_msg;
                        "suggestion" := VStr "This is a known issue with local path replacement in build environments" ]}))
       else if Str.contains "found circular import of flake" error_msg then
         Ok (mkTestResult "flake_check" FAILED
               "Circular import (local path issue)"
               (Some {[ "error" := VStr error_msg;
                        "suggestion" := VStr "This is expected with local path replacement when testing flake-fhs templates" ]}))
       else
         Ok (mkTestResult "flake_check" FAILED
               ("nix flake check failed: " +:+ error_msg)
               (Some {[ "return_code" := VInt (returncode result);
                        "stdout" := VStr (stdout result) ]}))
     else
       Ok (mkTestResult "flake_check" PASSED "nix flake check passed" None))
    (λ e, mkTestResult "flake_check" FAILED
            ("Error running nix flake check: " +:+ str e) None).

Definition flake_show_cmd : list string :=
  ["nix"; "--extra-experimental-features"; "nix-command";
   "--extra-experimental-features"; "flakes"; "flake"; "show"; "--json"].

(** [len(flake_data.get(category, {}).get("x86_64-linux", {}))] *)
Definition platform_count (flake_data : json) (category : string) : result nat :=
  outputs ← json_get flake_data category;
  targets ← json_get outputs "x86_64-linux";
  json_len targets.

Definition _check_template_outputs (tpl : template) (temp_dir : manifest_state)
    : TestResult :=
  try_except_all
    (result ← _run_command tpl flake_show_cmd temp_dir;
     if negb (returncode result =? 0)%Z then
       Ok (mkTestResult "outputs_check" FAILED
             ("Failed to get flake outputs: " +:+ Str.strip (stderr result))
             None)
     else
       try_except
         (flake_data ← json_loads w (stdout result);
          package_count ← platform_count flake_data "packages";
          check_count ← platform_count flake_data "checks";
          devShells ← platform_count flake_data "devShells";
          apps ← platform_count flake_data "apps";
          let outputs_info : gmap string value :=
            {[ "packages" := VInt (Z.of_nat package_count);
               "checks" := VInt (Z.of_nat check_count);
               "devShells" := VInt (Z.of_nat devShells);
               "apps" := VInt (Z.of_nat apps) ]} in
          if (0 <? package_count)%nat then
            Ok (mkTestResult "outputs_check" PASSED
                  "Template generates expected outputs" (Some outputs_info))
          else
            Ok (mkTestResult "outputs_check" FAILED
                  "Template does not generate any packages"
                  (Some outputs_info)))
         JSONDecodeError
         (λ e, Ok (mkTestResult "outputs_check" FAILED
                     ("Failed to parse flake show JSON: " +:+ str e)
                     (Some {[ "raw_output" :=
                                VStr (Str.take 500 (stdout result)) ]}))))
    (λ e, mkTestResult "outputs_check" FAILED
            ("Error checking template outputs: " +:+ str e) None).

(** The condition under which the outputs check runs: the flake check
    passed, or its suggestion has the words [local path issue]. *)
Definition outputs_check_enabled (flake_check_result : TestResult) : result bool :=
  match status flake_check_result with
  | PASSED => Ok true
  | _ => value_contains "local path issue"
           (details_get (details flake_check_result) "suggestion")
  end.

(** The body of the [with tempfile.TemporaryDirectory()] block: the results
    appended to [tests], and the exception that leaves the block, if any.
    A creation that fails comes with its message ([error_msg] is a string
    then), which becomes the message of the result. *)
Definition sandbox_tests (tpl : template) : list TestResult * option exception :=
  match tempdir_error tpl with
  | Some e => ([], Some e)
  | None =>
      let '((success, error_msg), temp_path) := _create_temp_template tpl in
      let '(appended, raised) :=
        if negb success then
          ([mkTestResult "temp_template_creation" FAILED
              (default "" error_msg) None], None)
        else
          let created :=
            mkTestResult "temp_template_creation" PASSED
              "Temporary template created with local path" None in
          let flake_check_result := _run_flake_check tpl temp_path in
          match outputs_check_enabled flake_check_result with
          | Raise e => ([created; flake_check_result], Some e)
          | Ok true =>
              ([created; flake_check_result;
                _check_template_outputs tpl temp_path], None)
          | Ok false =>
              ([created; flake_check_result;
                mkTestResult "outputs_check" SKIPPED
                  "Skipped due to flake check failures" None], None)
          end in
      (appended,
       match cleanup_error tpl with
       | Some e => Some e
       | None => raised
       end)
  end.

(** Whether a result is a critical failure: failed, and its suggestion has
    neither [local path replacement] nor [local path issue]. *)
Definition is_critical (r : TestResult) : result bool :=
  match status r with
  | FAILED =>
      let suggestion := details_get (details r) "suggestion" in
      a ← value_contains "local path replacement" suggestion;
      if negb a then
        b ← value_contains "local path issue" suggestion;
        Ok (negb b)
      else Ok false
  | _ => Ok false
  end.

Fixpoint critical_failures (tests : list TestResult) : result (list TestResult) :=
  match tests with
  | [] => Ok []
  | r :: rest =>
      c ← is_critical r;
      more ← critical_failures rest;
      Ok (if (c : bool) then r :: more else more)
  end.

(** The path [templates_dir / template_name] as text. *)
Definition template_path (template_name : string) : string :=
  Path.joinpath (templates_dir self) template_name.

(** What is at [templates_dir / template_name].  For the name of an entry
    of the templates directory the path is the path of that entry.  Any
    other name still makes a path (a name that ends with a slash or has
    several components, an empty or an absolute one, [..], a name in
    another letter case where the file system ignores case), and the file
    system says what is at it. *)
Definition entry_at (template_name : string) : option entry :=
  let elsewhere := stat w (template_path template_name) in
  match listdir w (templates_dir self) with
  | DirectoryOf entries =>
      match entries !! template_name with
      | Some e => Some e
      | None => elsewhere
      end
  | _ => elsewhere
  end.

(** The directory at [templates_dir / template_name], if there is one:
    [template_path.exists() and template_path.is_dir()]. *)
Definition template_at (template_name : string) : option template :=
  match entry_at template_name with
  | Some (Directory tpl) => Some tpl
  | _ => None
  end.

(** The [tests] list of [validate_template] when it reaches the
    aggregation: the URL check, what the sandbox block appended, and the
    result the [except] clause appends when the block raised. *)
Definition run_checks (tpl : template) : list TestResult :=
  let tests := [_check_template_uses_github_url tpl] in
  let '(appended, raised) := sandbox_tests tpl in
  let tests := tests ++ appended in
  match raised with
  | Some e =>
      tests ++ [mkTestResult "temp_template_tests" FAILED
                  ("Error in temporary template tests: " +:+ str e) None]
  | None => tests
  end.

Definition validate_template (template_name : string)
    : result TemplateValidationResult :=
  match template_at template_name with
  | None =>
      Ok (mkTemplateValidationResult template_name FAILED []
            (Some ("Template directory not found: "
                     +:+ template_path template_name)))
  | Some tpl =>
      let tests := run_checks tpl in
      critical ← critical_failures tests;
      let overall_status :=
        match critical with
        | [] => PASSED
        | _ => FAILED
        end in
      Ok (mkTemplateValidationResult template_name overall_status tests None)
  end.

(** [d.is_dir() and not d.name.startswith('.')] on an entry of the listing. *)
Definition is_template_dir (d : string * entry) : bool :=
  match d.2 with
  | Directory _ => negb (Str.startswith "." d.1)
  | NotDirectory => false
  end.

(** The loop [results[d.name] = self.validate_template(d.name)]. *)
Fixpoint validate_each (dirs : list (string * entry))
    (results : gmap string TemplateValidationResult)
    : result (gmap string TemplateValidationResult) :=
  match dirs with
  | [] => Ok results
  | d :: rest =>
      r ← validate_template d.1;
      validate_each rest (<[d.1 := r]> results)
  end.

Definition error_entry (msg : string) : gmap string TemplateValidationResult :=
  {[ "error" := mkTemplateValidationResult "error" FAILED [] (Some msg) ]}.

Definition validate_all_templates
    : result (gmap string TemplateValidationResult) :=
  match listdir w (templates_dir self) with
  | NoSuchPath =>
      Ok (error_entry ("Templates directory not found: " +:+ templates_dir self))
  | NotADirectory e => Raise e
  | DirectoryOf entries =>
      let template_dirs := List.filter is_template_dir (map_to_list entries) in
      match template_dirs with
      | [] => Ok (error_entry "No template directories found")
      | _ => validate_each template_dirs ∅
      end
  end.

End methods.
End TemplateValidator.

(** ** The command line: [main] after the arguments are parsed

    What [main] prints is left out; the icons it chooses, the two numbers
    of its summary and the exit status of the process are modelled. *)
Module Cli.

(** [--format], one of [text] and [json]. *)
Inductive output_format := TextFormat | JsonFormat.

(** The parsed arguments. *)
Record Namespace := mkNamespace {
  templates_dir : string;
  project_root : string;
  format : output_format;
  template : option string
}.

(** The icons of the text format: check mark, cross mark, warning sign
    and skip sign. *)
Inductive icon := CheckMark | CrossMark | WarningSign | SkipSign.

#[global] Instance icon_eq_dec : EqDecision icon.
Proof. solve_decision. Defined.

(** The icon before a test: a failure whose suggestion has the words
    [local path] gets the warning sign; [test.details] counts when it is a
    dictionary with entries. *)
Definition test_icon (test : TestResult) : result icon :=
  match status test with
  | PASSED => Ok CheckMark
  | FAILED =>
      match details test with
      | None => Ok CrossMark
      | Some d =>
          if decide (size d = 0) then Ok CrossMark
          else
            known ← value_contains "local path"
                      (default (VStr "") (d !! "suggestion"));
            Ok (if (known : bool) then WarningSign else CrossMark)
      end
  | SKIPPED => Ok SkipSign
  end.

(** The icon before a template. *)
Definition status_icon (r : TemplateValidationResult) : icon :=
  match overall_status r with
  | PASSED => CheckMark
  | _ => CrossMark
  end.

(** The icons of one template: its own and those of its tests, in order. *)
Definition render (r : TemplateValidationResult) : result (icon * list icon) :=
  icons ← mapM test_icon (tests r);
  Ok (status_icon r, icons).

(** The loop of the text format over [results.items()]: the entry under
    the key [error] prints its message and is passed over. *)
Definition text_report (results : gmap string TemplateValidationResult)
    : result (list (string * (icon * list icon))) :=
  mapM (λ item : string * TemplateValidationResult,
          block ← render item.2; Ok (item.1, block))
       (List.filter (λ item, negb (String.eqb item.1 "error"))
          (map_to_list results)).

(** [len([r for r in results.values() if r.template_name != "error"])] *)
Definition total_templates (results : gmap string TemplateValidationResult) : nat :=
  length (List.filter (λ r, negb (String.eqb (template_name r) "error"))
            (map_to_list results).*2).

(** [len([r for r in results.values() if r.overall_status == PASSED])] *)
Definition passed_templates (results : gmap string TemplateValidationResult) : nat :=
  length (List.filter (λ r, match overall_status r with
                            | PASSED => true
                            | _ => false
                            end)
            (map_to_list results).*2).

(** The results [main] works on: one template when [--template] is given
    and not empty, all of them otherwise. *)
Definition main_results (w : world) (args : Namespace)
    : result (gmap string TemplateValidationResult) :=
  let validator := TemplateValidator.mk (templates_dir args) (project_root args) in
  match template args with
  | Some (String c rest) =>
      r ← TemplateValidator.validate_template w validator (String c rest);
      Ok {[ String c rest := r ]}
  | _ => TemplateValidator.validate_all_templates w validator
  end.

(** [main]: the exit status of the process.  The text format ends in
    [sys.exit]; the JSON format prints and returns. *)
Definition main (w : world) (args : Namespace) : result Z :=
  results ← main_results w args;
  match format args with
  | JsonFormat => Ok 0%Z
  | TextFormat =>
      _ ← text_report results;
      Ok (if passed_templates results <? total_templates results
          then 1%Z else 0%Z)
  end.

End Cli.

(** ** The vocabulary of the specification *)
Module Spec.

(** The table of known benign signatures of the structural check, each
    with the suggestion its classification carries, in the order tried. *)
Definition known_signatures : list (string * string) :=
  [("attribute 'mkFlake' missing",
    "This is expected with local path replacement in build environments");
   ("expected a set but found a function",
    "This is a known issue with local path replacement in build environments");
   ("found circular import of flake",
    "This is expected with local path replacement when testing flake-fhs templates")].

(** The first signature of the table that a stderr text contains. *)
Definition classify (stderr_text : string) : option (string * string) :=
  List.find (λ entry, Str.contains entry.1 stderr_text) known_signatures.

(** A result carries a suggestion that marks it as an expected artifact of
    the local-path substitution. *)
Definition tolerated (r : TestResult) : Prop :=
  ∃ d s, details r = Some d ∧ d !! "suggestion" = Some (VStr s) ∧
    (Str.contains "local path replacement" s = true
     ∨ Str.contains "local path issue" s = true).

(** A critical failure: failed, and not tolerated. *)
Definition critical (r : TestResult) : Prop :=
  status r = FAILED ∧ ¬ tolerated r.

(** The number of entries of a document that has entries. *)
Definition sized (v : json) : option nat :=
  match v with
  | JString s => Some (String.length s)
  | JArray items => Some (length items)
  | JObject members => Some (size members)
  | _ => None
  end.

(** The number of outputs of a category for the platform [x86_64-linux] in
    a parsed document: none where the category or the platform is not
    listed; undefined where the document, or the category, is no object,
    or the platform's entry has no size. *)
Definition category_count (doc : json) (category : string) : option nat :=
  match doc with
  | JObject members =>
      match members !! category with
      | None => Some 0
      | Some (JObject platforms) =>
          match platforms !! "x86_64-linux" with
          | None => Some 0
          | Some targets => sized targets
          end
      | Some _ => None
      end
  | _ => None
  end.

(** The four counts: packages, checks, devShells, apps. *)
Definition output_counts (doc : json) : option (nat * nat * nat * nat) :=
  p ← category_count doc "packages";
  c ← category_count doc "checks";
  d ← category_count doc "devShells";
  a ← category_count doc "apps";
  Some (p, c, d, a).

(** The details that record four counts. *)
Definition counts_details (counts : nat * nat * nat * nat) : gmap string value :=
  let '(p, c, d, a) := counts in
  {[ "packages" := VInt (Z.of_nat p);
     "checks" := VInt (Z.of_nat c);
     "devShells" := VInt (Z.of_nat d);
     "apps" := VInt (Z.of_nat a) ]}.

(** [name] is an immediate subdirectory of the listing whose name does not
    start with a dot. *)
Definition non_hidden_subdirectory (entries : gmap string entry)
    (name : string) : Prop :=
  (∃ tpl, entries !! name = Some (Directory tpl))
  ∧ Str.startswith "." name = false.

(** The synthetic result under the key [error]. *)
Definition synthetic_error (results : gmap string TemplateValidationResult) : Prop :=
  ∃ msg, results =
    {[ "error" := mkTemplateValidationResult "error" FAILED [] (Some msg) ]}.

(** [(r.details or {}).get("suggestion", "")] is a string: the [in] tests of
    the gate and of the aggregation cannot raise on [r]. *)
Definition textual (r : TestResult) : Prop :=
  ∃ s, details_get (details r) "suggestion" = VStr s.

(** The results with fixed texts that the sandbox block appends, and the
    one the [except] clause of [validate_template] appends. *)
Definition creation_passed : TestResult :=
  mkTestResult "temp_template_creation" PASSED
    "Temporary template created with local path" None.

Definition creation_failed (error_msg : option string) : TestResult :=
  mkTestResult "temp_template_creation" FAILED (default "" error_msg) None.

Definition outputs_skipped : TestResult :=
  mkTestResult "outputs_check" SKIPPED "Skipped due to flake check failures" None.

Definition block_failed (e : exception) : TestResult :=
  mkTestResult "temp_template_tests" FAILED
    ("Error in temporary template tests: " +:+ str e) None.

(** The output-count law read over every output that is printed with exit
    code 0 and that [json.loads] reads: the result has details that record
    four counts, and is Passed exactly when the count of packages is
    positive. *)
Definition output_count_law_unrestricted : Prop :=
  ∀ w tpl sb out err doc,
    subprocess_run tpl TemplateValidator.flake_show_cmd sb = Exited 0 out err →
    json_loads w out = Ok doc →
    let r := TemplateValidator._check_template_outputs w tpl sb in
    ∃ p c d a,
      (status r = PASSED ↔ 0 < p)
      ∧ details r = Some (counts_details (p, c, d, a)).

End Spec.

(** ** Concrete templates and worlds, for the examples *)
Module Examples.
Import Str TemplateValidator.


Definition quoted (s : string) : string :=
  String dquote (s +:+ String dquote EmptyString).

(** A manifest with the canonical reference. *)
Definition canonical_manifest : string :=
  "inputs.flake-fhs.url = " +:+ quoted "github:luochen1990/flake-fhs" +:+ ";".

(** A manifest that declares two other references. *)
Definition fork_manifest : string :=
  "inputs.flake-fhs.url = " +:+ quoted "github:someone/fork" +:+ "; flake-fhs.url="
    +:+ quoted "path:../.." +:+ ";".

Definition example_validator : TemplateValidator.t :=
  TemplateValidator.mk "/repo/templates" "/repo".

(** A template whose commands end as [check] and [show] say. *)
Definition template_with (manifest : manifest_state) (check show : process)
    : template :=
  mkTemplate manifest None None None None
    (λ command _,
       if decide (command = flake_check_cmd) then check else show).

(** The flake check fails with the mkFlake signature on stderr. *)
Definition mkFlake_template : template :=
  template_with (ManifestText canonical_manifest)
    (Exited 1 "" "error: attribute 'mkFlake' missing")
    (Exited 0 "{}" "").

(** The flake check passes and [show] prints a document. *)
Definition passing_template : template :=
  template_with (ManifestText canonical_manifest)
    (Exited 0 "" "") (Exited 0 "{}" "").

(** The manifest is missing. *)
Definition empty_template : template :=
  template_with ManifestAbsent (Exited 0 "" "") (Exited 0 "{}" "").

(** The manifest has neither the canonical reference nor a path. *)
Definition unrewritable_template : template :=
  template_with (ManifestText "{ }") (Exited 0 "" "") (Exited 0 "{}" "").

(** The manifest declares other references. *)
Definition fork_template : template :=
  template_with (ManifestText fork_manifest) (Exited 0 "" "") (Exited 0 "{}" "").

(** A document with two packages and one check. *)
Definition two_packages : json :=
  JObject {[ "packages" :=
               JObject {[ "x86_64-linux" :=
                            JObject {[ "hello" := JNull; "world" := JNull ]} ]};
             "checks" :=
               JObject {[ "x86_64-linux" := JObject {[ "fmt" := JNull ]} ]} ]}.

Definition example_listing : gmap string entry :=
  {[ "simple" := Directory passing_template;
     "broken" := Directory mkFlake_template;
     ".git" := Directory empty_template;
     "README.md" := NotDirectory ]}.

(** A small file system: the root, [/repo] and [/repo/templates] with the
    entries of a listing, and nothing else.  A node is named by its
    components from the root; the templates directory has no manifest. *)
Definition node_of (listing : gmap string entry) (names : list string)
    : option entry :=
  match names with
  | [] => Some (Directory empty_template)
  | [a] => if String.eqb a "repo" then Some (Directory unrewritable_template)
           else None
  | [a; b] => if String.eqb a "repo" && String.eqb b "templates"
              then Some (Directory empty_template) else None
  | [a; b; n] => if String.eqb a "repo" && String.eqb b "templates"
                 then listing !! n else None
  | _ => None
  end.

(** Path resolution in it: each component is looked up in the directory
    reached so far, and [..] leads to the parent, which for the root is
    the root. *)
Fixpoint resolve (listing : gmap string entry) (here : list string)
    (components : list string) : option (list string) :=
  match components with
  | [] => Some here
  | c :: rest =>
      match node_of listing here with
      | Some (Directory _) =>
          resolve listing
            (if String.eqb c ".." then removelast here else here ++ [c]) rest
      | _ => None
      end
  end.

(** What this file system has at a path; a relative path starts from the
    working directory [/repo]. *)
Definition stat_of (listing : gmap string entry) (path : string)
    : option entry :=
  let '(root, rel) := Path.splitroot path in
  let start := match root with EmptyString => ["repo"] | _ => [] end in
  here ← resolve listing start (Path.parts rel);
  node_of listing here.

(** A world whose templates directory has the listing, and whose parser
    reads every output as [doc]. *)
Definition world_with (doc : json) : world :=
  mkWorld (λ path, if decide (path = "/repo/templates")
                   then DirectoryOf example_listing else NoSuchPath)
          (λ _, Ok doc)
          (stat_of example_listing).

(** A world in which the templates path is a regular file: [exists] holds
    and [iterdir] raises [NotADirectoryError], an [OSError]. *)
Definition file_root_world : world :=
  mkWorld (λ _, NotADirectory (mk_exception OSError
                              "[Errno 20] Not a directory: '/repo/templates'"))
          (λ _, Ok JNull)
          (λ path, if decide (path = "/repo/templates")
                   then Some NotDirectory else None).

(** A template whose [show] prints a JSON array. *)
Definition array_template : template :=
  template_with (ManifestText canonical_manifest)
    (Exited 0 "" "") (Exited 0 "[]" "").

End Examples.

(** ** Words for what the text format shows *)
Module Report.
Import Str.

(** The icon of a test whose suggestion is the text [s]. *)
Definition icon_of (t : TestResult) (s : string) : Cli.icon :=
  match status t with
  | PASSED => Cli.CheckMark
  | FAILED =>
      if contains "local path" s then Cli.WarningSign else Cli.CrossMark
  | SKIPPED => Cli.SkipSign
  end.

(** The words of a suggestion: [local path] is there exactly when one of
    the two phrases of the aggregation is. *)
Definition plain_words (s : string) : Prop :=
  contains "local path" s
  = contains "local path replacement" s || contains "local path issue" s.

(** The text of the suggestion of a result. *)
Definition suggestion_text (t : TestResult) : string :=
  match details_get (details t) "suggestion" with
  | VStr s => s
  | _ => EmptyString
  end.

(** The template passed overall. *)
Definition passed (r : TemplateValidationResult) : bool :=
  match overall_status r with
  | PASSED => true
  | _ => false
  end.

End Report.

(** ** Facts about the text operations *)
Module StrFacts.
Import Str.

Lemma append_cons c a b : String c a +:+ b = String c (a +:+ b).
Proof. reflexivity. Qed.

Lemma append_empty_l b : EmptyString +:+ b = b.
Proof. reflexivity. Qed.

Lemma startswith_cons a p b s :
  startswith (String a p) (String b s) = Ascii.eqb a b && startswith p s.
Proof. reflexivity. Qed.

Lemma contains_cons p c s :
  contains p (String c s) = startswith p (String c s) || contains p s.
Proof. reflexivity. Qed.

Lemma contains_empty_false p : p ≠ EmptyString → contains p EmptyString = false.
Proof. by destruct p. Qed.

Lemma after_prefix_app p s rest : after_prefix p s = Some rest ↔ s = p +:+ rest.
Proof.
  revert s; induction p as [|a p IH]; intros s; simpl.
  - split; [by intros [= ->]|by intros ->].
  - destruct s as [|b s]; [split; done|].
    destruct (Ascii.eqb_spec a b) as [->|Hne].
    + rewrite IH. split; [by intros ->|by intros [= ->]].
    + split; [done|]. intros [= -> _]. done.
Qed.

Lemma startswith_after_prefix p s :
  startswith p s = true ↔ is_Some (after_prefix p s).
Proof.
  revert s; induction p as [|a p IH]; intros s; simpl.
  - split; [by eexists|done].
  - destruct s as [|b s]; [split; [done|by intros [? ?]]|].
    destruct (Ascii.eqb a b); simpl; [apply IH|].
    split; [done|by intros [? ?]].
Qed.

(** A text without an occurrence of [old] is left as it is. *)
Lemma replace_occurrences_absent old new s :
  contains old s = false → replace_occurrences old new s = s.
Proof.
  funelim (replace_occurrences old new s); intros Hc.
  - reflexivity.
  - exfalso. simpl in Hc. apply orb_false_elim in Hc as [Hs _].
    destruct old as [|o old]; [done|]. unfold occurrence_at in Hocc.
    assert (startswith (String o old) (String c rest) = true) as Hst
      by (apply startswith_after_prefix; by eexists).
    congruence.
  - simpl in Hc. apply orb_false_elim in Hc as [_ Hc].
    f_equal. auto.
Qed.

Lemma replace_absent old new s :
  old ≠ EmptyString → contains old s = false → replace old new s = s.
Proof.
  destruct old as [|o old]; [done|]. intros _. apply replace_occurrences_absent.
Qed.

Lemma contains_lstrip p s :
  (∃ c, first_char p = Some c ∧ isspace c = false) →
  contains p (lstrip s) = contains p s.
Proof.
  intros (c0 & Hf & Hsp). induction s as [|c s IH]; [done|].
  cbn [lstrip]. destruct (isspace c) eqn:Hc; [|done].
  rewrite IH, contains_cons.
  destruct p as [|a p]; [done|]. simpl in Hf. injection Hf as ->.
  rewrite startswith_cons.
  destruct (Ascii.eqb_spec c0 c) as [->|]; [congruence|done].
Qed.

Lemma rstrip_nonempty_prefix p s :
  p ≠ EmptyString → startswith p (rstrip s) = true → rstrip s ≠ EmptyString.
Proof. destruct p; [done|]. by destruct (rstrip s). Qed.

Lemma rstrip_cons c s :
  rstrip s ≠ EmptyString → rstrip (String c s) = String c (rstrip s).
Proof. simpl. by destruct (rstrip s). Qed.

Lemma rstrip_cons_nonspace c s :
  isspace c = false → rstrip (String c s) = String c (rstrip s).
Proof. simpl. intros ->. by destruct (rstrip s). Qed.

Lemma startswith_rstrip p s :
  (∃ c, last_char p = Some c ∧ isspace c = false) →
  startswith p (rstrip s) = startswith p s.
Proof.
  intros Hl. revert s. induction p as [|a p IH]; intros s; [done|].
  destruct s as [|b s]; [done|].
  rewrite startswith_cons.
  destruct p as [|a' p].
  - destruct Hl as (c & [= <-] & Hc).
    destruct (Ascii.eqb_spec a b) as [->|Hne].
    + rewrite rstrip_cons_nonspace by done.
      by rewrite startswith_cons, Ascii.eqb_refl.
    + simpl rstrip. destruct (rstrip s); [destruct (isspace b)|];
        rewrite ?startswith_cons; try done; by destruct (Ascii.eqb_spec a b).
  - specialize (IH Hl s).
    destruct (startswith (String a' p) s) eqn:Hs.
    + assert (rstrip s ≠ EmptyString)
        by (by apply (rstrip_nonempty_prefix (String a' p))).
      rewrite rstrip_cons by done. by rewrite startswith_cons, IH.
    + rewrite andb_false_r.
      simpl rstrip. destruct (rstrip s) eqn:Hr.
      * destruct (isspace b); [done|]. rewrite startswith_cons.
        by rewrite andb_false_r.
      * by rewrite startswith_cons, IH, andb_false_r.
Qed.

Lemma contains_rstrip p s :
  (∃ c, last_char p = Some c ∧ isspace c = false) →
  contains p (rstrip s) = contains p s.
Proof.
  intros Hl.
  assert (p ≠ EmptyString) as Hp by (destruct Hl as (?&?&?); by destruct p).
  induction s as [|c s IH]; [done|].
  rewrite (contains_cons p c s), <-IH, <-(startswith_rstrip p (String c s)) by done.
  simpl rstrip. destruct (rstrip s) eqn:Hr.
  - destruct (isspace c); [|done].
    rewrite (contains_empty_false p) by done. by destruct p.
  - apply contains_cons.
Qed.

(** Stripping a text neither adds nor removes an occurrence of a text that
    has no white space at its ends. *)
Lemma contains_strip p s :
  unpadded p → contains p (strip s) = contains p s.
Proof.
  intros [Hf Hl]. unfold strip. by rewrite contains_rstrip, contains_lstrip.
Qed.

End StrFacts.

(** ** Facts about the pattern: the scan and the relation agree *)
Module ReFacts.
Import Str Re StrFacts.

Lemma lstrip_split s :
  ∃ w, s = w +:+ lstrip s ∧ all_chars isspace w = true.
Proof.
  induction s as [|c s (w & IH & Hw)]; [by exists EmptyString|].
  simpl. destruct (isspace c) eqn:Hc.
  - exists (String c w). split; simpl.
    + by rewrite append_cons, <-IH.
    + by rewrite Hc, Hw.
  - by exists EmptyString.
Qed.

Lemma lstrip_app_nonspace w c s :
  all_chars isspace w = true → isspace c = false →
  lstrip (w +:+ String c s) = String c s.
Proof.
  intros Hw Hc. induction w as [|a w IH].
  - rewrite append_empty_l. simpl. by rewrite Hc.
  - rewrite append_cons. simpl in *. apply andb_prop in Hw as [-> Hw]. auto.
Qed.

Lemma expect_spec c s rest : expect c s = Some rest ↔ s = String c rest.
Proof.
  destruct s as [|a s]; simpl; [done|].
  destruct (Ascii.eqb_spec a c) as [->|Hne].
  - split; [by intros [= ->]|by intros [= ->]].
  - split; [done|]. by intros [= -> _].
Qed.

Lemma span_unquoted_split s v r :
  span_unquoted s = (v, r) →
  s = v +:+ r ∧ all_chars unquoted v = true
  ∧ (r = EmptyString ∨ ∃ r', r = String dquote r').
Proof.
  revert v r; induction s as [|c s IH]; intros v r H; simpl in H.
  - injection H as <- <-. auto.
  - destruct (Ascii.eqb_spec c dquote) as [->|Hne].
    + injection H as <- <-. eauto.
    + destruct (span_unquoted s) as [v' r'] eqn:E.
      injection H as <- <-. destruct (IH _ _ eq_refl) as (-> & Hv & Hr).
      rewrite append_cons. simpl. unfold unquoted at 1.
      destruct (Ascii.eqb_spec c dquote); [done|]. auto.
Qed.

Lemma span_unquoted_app v rest :
  all_chars unquoted v = true →
  span_unquoted (v +:+ String dquote rest) = (v, String dquote rest).
Proof.
  induction v as [|c v IH]; intros Hv.
  - reflexivity.
  - rewrite append_cons. simpl in *.
    apply andb_prop in Hv as [Hc Hv]. unfold unquoted in Hc.
    destruct (Ascii.eqb c dquote); [done|]. by rewrite IH.
Qed.

(** The anchored match finds exactly the assignments. *)
Lemma match_flake_url_spec s v rest :
  match_flake_url s = Some (v, rest) ↔ assignment s v rest.
Proof.
  unfold match_flake_url, assignment. split.
  - intros H.
    destruct (after_prefix _ s) as [s1|] eqn:E1; simpl in H; [|done].
    destruct (expect _ (lstrip s1)) as [s2|] eqn:E2; simpl in H; [|done].
    destruct (expect _ (lstrip s2)) as [s3|] eqn:E3; simpl in H; [|done].
    destruct (span_unquoted s3) as [x r] eqn:E4.
    destruct x as [|v0 x]; [done|]. destruct r as [|q r]; [done|].
    injection H as <- <-.
    apply after_prefix_app in E1. apply expect_spec in E2, E3.
    apply span_unquoted_split in E4 as (E4 & Hv & [?|[r' [= -> ->]]]); [done|].
    destruct (lstrip_split s1) as (w1 & Hs1 & Hw1).
    destruct (lstrip_split s2) as (w2 & Hs2 & Hw2).
    exists w1, w2. split_and!; try done.
    rewrite E1, Hs1, E2, Hs2, E3, E4. reflexivity.
  - intros (w1 & w2 & -> & Hw1 & Hw2 & Hv & Hq).
    assert (after_prefix "flake-fhs.url"
              ("flake-fhs.url" +:+ w1 +:+ "=" +:+ w2
                 +:+ String dquote (v +:+ String dquote rest))
            = Some (w1 +:+ "=" +:+ w2
                 +:+ String dquote (v +:+ String dquote rest))) as ->
      by (by apply after_prefix_app).
    simpl. change ("=" +:+ ?x) with (String "="%char x).
    rewrite lstrip_app_nonspace by done. simpl.
    rewrite lstrip_app_nonspace by done. simpl.
    rewrite span_unquoted_app by done. by destruct v.
Qed.

Lemma findall_flake_url_cons c s :
  findall_flake_url (String c s) =
  match match_flake_url (String c s) with
  | Some (v, after) => v :: findall_flake_url after
  | None => findall_flake_url s
  end.
Proof.
  simp findall_flake_url.
  destruct (Logic.inspect (match_flake_url (String c s))) as [[[v a]|] H];
    simpl; by rewrite H.
Qed.

(** The scan returns the values of the assignments, in order. *)
Lemma findall_flake_url_spec s : Findall s (findall_flake_url s).
Proof.
  funelim (findall_flake_url s).
  - constructor.
  - eapply Findall_match; [|done]. by apply match_flake_url_spec.
  - apply Findall_skip; [|done]. intros v r Ha%match_flake_url_spec. congruence.
Qed.

(** The relation determines the list. *)
Lemma Findall_functional s vs : Findall s vs → vs = findall_flake_url s.
Proof.
  induction 1 as [|s v rest vs Ha _ IH|c s vs Hn _ IH].
  - reflexivity.
  - apply match_flake_url_spec in Ha. destruct s as [|c s]; [done|].
    by rewrite findall_flake_url_cons, Ha, IH.
  - rewrite findall_flake_url_cons.
    destruct (match_flake_url (String c s)) as [[v a]|] eqn:E; [|done].
    apply match_flake_url_spec in E. by destruct (Hn v a).
Qed.

End ReFacts.

(** ** More facts about the text operations *)
Module StrMore.
Import Str StrFacts.

Lemma append_assoc a b c : (a +:+ b) +:+ c = a +:+ (b +:+ c).
Proof. induction a as [|x a IH]; [done|]. by rewrite !append_cons, IH. Qed.

Lemma append_empty_r a : a +:+ EmptyString = a.
Proof. induction a as [|x a IH]; [done|]. by rewrite append_cons, IH. Qed.

Lemma append_length a b :
  String.length (a +:+ b) = String.length a + String.length b.
Proof. induction a as [|x a IH]; [done|]. rewrite append_cons. simpl. lia. Qed.

Lemma startswith_spec p s : startswith p s = true ↔ ∃ b, s = p +:+ b.
Proof.
  rewrite startswith_after_prefix. split.
  - intros [b Hb]. exists b. by apply after_prefix_app.
  - intros [b Hb]. exists b. by apply after_prefix_app.
Qed.

(** [p in s] says that [s] is some text, then [p], then some text. *)
Lemma contains_spec p s :
  contains p s = true ↔ ∃ a b, s = a +:+ p +:+ b.
Proof.
  split.
  - induction s as [|c s IH].
    + simpl. rewrite orb_false_r. intros [b Hb]%startswith_spec.
      by exists EmptyString, b.
    + rewrite contains_cons. intros [H|H]%orb_prop.
      * apply startswith_spec in H as [b Hb]. by exists EmptyString, b.
      * destruct (IH H) as (a & b & ->). by exists (String c a), b.
  - intros (a & b & ->). induction a as [|c a IH].
    + rewrite append_empty_l.
      assert (startswith p (p +:+ b) = true) as H
        by (apply startswith_spec; by exists b).
      destruct (p +:+ b); simpl; by rewrite H.
    + rewrite append_cons, contains_cons, IH. apply orb_true_r.
Qed.

Lemma contains_app_l p a s : contains p s = true → contains p (a +:+ s) = true.
Proof.
  rewrite !contains_spec. intros (x & y & ->). exists (a +:+ x), y.
  by rewrite append_assoc.
Qed.

Lemma contains_app_r p s b : contains p s = true → contains p (s +:+ b) = true.
Proof.
  rewrite !contains_spec. intros (x & y & ->). exists x, (y +:+ b).
  by rewrite !append_assoc.
Qed.

(** A text that contains [p] followed by [q] contains [p]. *)
Lemma contains_prefix p q s :
  contains (p +:+ q) s = true → contains p s = true.
Proof.
  rewrite !contains_spec. intros (x & y & ->). exists x, (q +:+ y).
  by rewrite !append_assoc.
Qed.

Lemma contains_suffix p q s :
  contains (p +:+ q) s = true → contains q s = true.
Proof.
  rewrite !contains_spec. intros (x & y & ->). exists (x +:+ p), y.
  by rewrite !append_assoc.
Qed.

(** Where the non-empty [old] occurs, the replacement leaves [new]. *)
Lemma replace_occurrences_present old new s :
  old ≠ EmptyString →
  contains old s = true → contains new (replace_occurrences old new s) = true.
Proof.
  intros Hold. funelim (replace_occurrences old new s); intros Hc.
  - by destruct old.
  - apply contains_spec. by exists EmptyString, (replace_occurrences old new after).
  - rewrite contains_cons in Hc. apply orb_prop in Hc as [Hs|Hc].
    + apply startswith_after_prefix in Hs as [r Hr].
      destruct old as [|o old]; [done|]. unfold occurrence_at in *. congruence.
    + rewrite contains_cons. rewrite H by done. apply orb_true_r.
Qed.

Lemma replace_present old new s :
  old ≠ EmptyString →
  contains old s = true → contains new (replace old new s) = true.
Proof.
  intros Hold. destruct old as [|o old]; [done|].
  by apply replace_occurrences_present.
Qed.

Lemma take_length n s :
  String.length (take n s) = Nat.min n (String.length s).
Proof.
  revert s. induction n as [|n IH]; intros [|c s]; simpl; try done.
  by rewrite IH.
Qed.

Lemma take_startswith n s : startswith (take n s) s = true.
Proof.
  revert s. induction n as [|n IH]; intros [|c s]; simpl; try done.
  by rewrite Ascii.eqb_refl, IH.
Qed.

Lemma take_all n s : String.length s ≤ n → take n s = s.
Proof.
  revert s. induction n as [|n IH]; intros [|c s]; simpl; try done; try lia.
  intros H. rewrite IH; [done|lia].
Qed.

End StrMore.

(** ** Properties of the validator *)
Module Properties.
Import Str Re TemplateValidator StrFacts ReFacts Spec Examples.

(** *** The suggestion of a result is a text *)

Lemma tolerated_textual r s :
  details_get (details r) "suggestion" = VStr s →
  tolerated r ↔
    contains "local path replacement" s = true
    ∨ contains "local path issue" s = true.
Proof.
  unfold details_get, tolerated. intros Hs.
  destruct (details r) as [d|]; cbn [default from_option id] in Hs.
  - destruct (d !! "suggestion") as [v|] eqn:E; cbn [default from_option id] in Hs.
    + subst v. split.
      * intros (d' & s' & [= <-] & Hl & H). by simplify_eq.
      * intros H. by exists d, s.
    + injection Hs as <-. split.
      * intros (d' & s' & [= <-] & Hl & H). congruence.
      * by intros [H|H].
  - rewrite lookup_empty in Hs. injection Hs as <-. split.
    + by intros (d' & s' & [=] & _).
    + by intros [H|H].
Qed.

Lemma is_critical_spec r :
  textual r →
  ∃ b, is_critical r = Ok b ∧ (b = true ↔ critical r).
Proof.
  intros [s Hs]. unfold is_critical, critical.
  pose proof (tolerated_textual r s Hs) as Ht.
  destruct (status r); try (exists false; split; [done|]; split; [done|by intros [? _]]).
  rewrite Hs. cbn [value_contains mbind result_bind].
  destruct (contains "local path replacement" s) eqn:E1; cbn [negb].
  - exists false. split; [done|]. split; [done|]. intros [_ Hn]. destruct Hn. apply Ht. auto.
  - cbn [mbind result_bind]. destruct (contains "local path issue" s) eqn:E2; cbn [negb].
    + exists false. split; [done|]. split; [done|]. intros [_ Hn]. destruct Hn. apply Ht. auto.
    + exists true. split; [done|]. split; [|done]. intros _. split; [done|].
      rewrite Ht. by intros [?|?].
Qed.

Lemma critical_failures_spec tests :
  Forall textual tests →
  ∃ cs, critical_failures tests = Ok cs
        ∧ ∀ r, r ∈ cs ↔ r ∈ tests ∧ critical r.
Proof.
  induction 1 as [|r tests Hr _ (cs & Hcs & IH)].
  - exists []. split; [done|]. intros r. rewrite !elem_of_nil. tauto.
  - destruct (is_critical_spec r Hr) as (b & Hb & Hbc).
    cbn [critical_failures]. rewrite Hb, Hcs. cbn [mbind result_bind].
    eexists. split; [done|]. intros r'. rewrite elem_of_cons.
    destruct b.
    + rewrite elem_of_cons, IH. split.
      * intros [->|[? ?]]; [|tauto]. split; [auto|]. by apply Hbc.
      * intros [[->|?] ?]; auto.
    + rewrite IH. split.
      * intros [? ?]; auto.
      * intros [[->|?] Hc]; [|done]. apply Hbc in Hc. done.
Qed.

Lemma url_check_suggestion tpl :
  details_get (details (_check_template_uses_github_url tpl)) "suggestion"
  = VStr "".
Proof.
  unfold _check_template_uses_github_url.
  destruct (flake_nix tpl) as [|content|e]; try reflexivity.
  by destruct (contains EXPECTED_GITHUB_URL content).
Qed.

Lemma known_signatures_unpadded :
  Forall (λ entry, unpadded entry.1) known_signatures.
Proof. repeat constructor; eexists; (split; reflexivity). Qed.

(** The text the classification looks at has a signature exactly when the
    raw stderr text has it. *)
Lemma error_msg_contains sig err :
  unpadded sig → contains sig "Unknown error" = false →
  contains sig
    match err with
    | EmptyString => "Unknown error"
    | String a s => strip (String a s)
    end
  = contains sig err.
Proof.
  intros Hu Hn. destruct err as [|a s].
  - rewrite Hn. symmetry. apply contains_empty_false.
    destruct Hu as [(c & H & _) _]. by destruct sig.
  - by apply contains_strip.
Qed.

Ltac unfold_flake_check H :=
  unfold _run_flake_check, _run_command; rewrite H;
  cbn [mbind result_bind try_except_all returncode stderr stdout].

(** What the flake check returns, by its suggestion: none of the
    suggestions it writes has the words [local path issue]. *)
Lemma flake_check_suggestion tpl sb :
  ∃ s, details_get (details (_run_flake_check tpl sb)) "suggestion" = VStr s
       ∧ contains "local path issue" s = false.
Proof.
  destruct (subprocess_run tpl flake_check_cmd sb) as [rc out err| |e] eqn:H;
    unfold_flake_check H; try (by exists EmptyString).
  destruct (negb (rc =? 0)%Z); [|by exists EmptyString].
  repeat match goal with
         | |- context [if ?b then _ else _] => destruct b
         end; by eexists.
Qed.

Lemma flake_check_name tpl sb : name (_run_flake_check tpl sb) = "flake_check".
Proof.
  destruct (subprocess_run tpl flake_check_cmd sb) as [rc out err| |e] eqn:H;
    unfold_flake_check H; try done.
  destruct (negb (rc =? 0)%Z); [|done].
  repeat match goal with
         | |- context [if ?b then _ else _] => destruct b
         end; done.
Qed.

(** The gate of the outputs check opens for a passed flake check only. *)
Lemma outputs_check_enabled_flake_check tpl sb :
  outputs_check_enabled (_run_flake_check tpl sb)
  = Ok match status (_run_flake_check tpl sb) with
       | PASSED => true
       | _ => false
       end.
Proof.
  unfold outputs_check_enabled.
  destruct (flake_check_suggestion tpl sb) as (s & -> & Hs).
  destruct (status _); try done; cbn [value_contains]; by rewrite Hs.
Qed.

Lemma json_len_spec v :
  match json_len v with
  | Ok n => sized v = Some n
  | Raise e => sized v = None ∧ class_of e ≠ JSONDecodeError
  end.
Proof. by destruct v. Qed.

(** The chain of [get] and [len] computes the count of the category, and
    raises where the count is undefined. *)
Lemma platform_count_spec doc category :
  match platform_count doc category with
  | Ok n => category_count doc category = Some n
  | Raise e =>
      category_count doc category = None ∧ class_of e ≠ JSONDecodeError
  end.
Proof.
  unfold platform_count, category_count.
  destruct doc as [| | | | | |members]; try done.
  cbn [json_get mbind result_bind].
  destruct (members !! category) as [outputs|] eqn:E; rewrite ?E;
    cbn [default from_option id].
  - destruct outputs as [| | | | | |platforms]; try done.
    cbn [json_get].
    destruct (platforms !! "x86_64-linux") as [targets|] eqn:E';
      cbn [default from_option id]; [apply json_len_spec|reflexivity].
  - reflexivity.
Qed.

Ltac count_case doc cat :=
  let H := fresh "Hc" in
  pose proof (platform_count_spec doc cat) as H;
  destruct (platform_count doc cat) as [?|?];
  [rewrite H | destruct H as [H ?]; rewrite H];
  cbn [mbind result_bind option_bind try_except try_except_all];
  [|by rewrite decide_False by done].

(** The outputs check on a command that exits with 0 and prints a
    document [json.loads] reads. *)
Lemma outputs_check_parsed w tpl sb out err doc :
  subprocess_run tpl flake_show_cmd sb = Exited 0 out err →
  json_loads w out = Ok doc →
  let r := _check_template_outputs w tpl sb in
  name r = "outputs_check" ∧
  match output_counts doc with
  | Some (p, c, d, a) =>
      status r = (if (0 <? p)%nat then PASSED else FAILED)
      ∧ details r = Some (counts_details (p, c, d, a))
  | None => status r = FAILED ∧ details r = None
  end.
Proof.
  intros Hrun Hdoc. unfold _check_template_outputs, _run_command.
  rewrite Hrun. cbn [mbind result_bind returncode stdout stderr Z.eqb negb].
  rewrite Hdoc. unfold output_counts.
  cbn [mbind result_bind option_bind].
  count_case doc "packages". count_case doc "checks".
  count_case doc "devShells". count_case doc "apps".
  by destruct (0 <? _)%nat.
Qed.

Lemma outputs_check_suggestion w tpl sb :
  name (_check_template_outputs w tpl sb) = "outputs_check" ∧
  details_get (details (_check_template_outputs w tpl sb)) "suggestion"
  = VStr "".
Proof.
  destruct (subprocess_run tpl flake_show_cmd sb) as [rc out err| |e] eqn:H.
  - destruct (decide (rc = 0%Z)) as [->|Hrc].
    + destruct (json_loads w out) as [doc|e] eqn:Hdoc.
      * destruct (outputs_check_parsed w tpl sb out err doc H Hdoc) as [Hn Hd].
        split; [done|].
        destruct (output_counts doc) as [[[[p c] d] a]|];
          destruct Hd as [_ ->]; reflexivity.
      * unfold _check_template_outputs, _run_command. rewrite H.
        cbn [mbind result_bind returncode stdout stderr Z.eqb negb].
        rewrite Hdoc. cbn [mbind result_bind try_except].
        by destruct (decide _).
    + unfold _check_template_outputs, _run_command. rewrite H.
      cbn [mbind result_bind returncode stdout stderr].
      apply Z.eqb_neq in Hrc. by rewrite Hrc.
  - unfold _check_template_outputs, _run_command. by rewrite H.
  - unfold _check_template_outputs, _run_command. by rewrite H.
Qed.

(** A creation that fails says why. *)
Lemma create_failure_has_message self tpl :
  (_create_temp_template self tpl).1.1 = false →
  is_Some (_create_temp_template self tpl).1.2.
Proof.
  unfold _create_temp_template.
  destruct (copy_error tpl); [by eexists|].
  destruct (flake_nix tpl); try by eexists.
  destruct (write_error tpl); [by eexists|].
  destruct (_ && _); [done|by eexists].
Qed.

(** The sandbox block, case by case. *)
Lemma sandbox_tests_cases w self tpl :
  sandbox_tests w self tpl =
  match tempdir_error tpl with
  | Some e => ([], Some e)
  | None =>
      (match _create_temp_template self tpl with
       | ((true, _), sb) =>
           [creation_passed; _run_flake_check tpl sb;
            match status (_run_flake_check tpl sb) with
            | PASSED => _check_template_outputs w tpl sb
            | _ => outputs_skipped
            end]
       | ((false, error_msg), _) => [creation_failed error_msg]
       end, cleanup_error tpl)
  end.
Proof.
  unfold sandbox_tests. destruct (tempdir_error tpl); [done|].
  destruct (_create_temp_template self tpl) as [[[|] error_msg] sb]; cbn [negb].
  - rewrite outputs_check_enabled_flake_check.
    destruct (status (_run_flake_check tpl sb)); by destruct (cleanup_error tpl).
  - by destruct (cleanup_error tpl).
Qed.

Lemma run_checks_cases w self tpl :
  run_checks w self tpl =
  _check_template_uses_github_url tpl :: (sandbox_tests w self tpl).1
    ++ match (sandbox_tests w self tpl).2 with
       | Some e => [block_failed e]
       | None => []
       end.
Proof.
  unfold run_checks. destruct (sandbox_tests w self tpl) as [appended [e|]];
    simpl; [done|by rewrite app_nil_r].
Qed.

Lemma textual_no_details n st m : textual (mkTestResult n st m None).
Proof. by exists EmptyString. Qed.

Lemma run_checks_textual w self tpl : Forall textual (run_checks w self tpl).
Proof.
  rewrite run_checks_cases, sandbox_tests_cases.
  constructor; [eexists; apply url_check_suggestion|].
  apply Forall_app. split.
  - destruct (tempdir_error tpl); [constructor|]. cbn [fst].
    destruct (_create_temp_template self tpl) as [[[|] error_msg] sb].
    + repeat constructor; try apply textual_no_details.
      * destruct (flake_check_suggestion tpl sb) as (s & Hs & _). by exists s.
      * destruct (status _); try apply textual_no_details.
        eexists. apply outputs_check_suggestion.
    + repeat constructor. apply textual_no_details.
  - destruct (_ .2); repeat constructor. apply textual_no_details.
Qed.

(** [validate_template] returns, whatever the world: its aggregation never
    raises. *)
Lemma validate_template_returns w self template_name :
  ∃ r, validate_template w self template_name = Ok r.
Proof.
  unfold validate_template. destruct (template_at w self template_name) as [tpl|];
    [|by eexists].
  destruct (critical_failures_spec _ (run_checks_textual w self tpl))
    as (cs & -> & _).
  by eexists.
Qed.

(** The result for a directory that exists: the checks that ran, no error
    message, and an overall status that fails exactly on a critical
    failure. *)
Lemma validate_template_found w self template_name tpl :
  template_at w self template_name = Some tpl →
  ∃ st,
    validate_template w self template_name =
      Ok (mkTemplateValidationResult template_name st
            (run_checks w self tpl) None)
    ∧ (st = PASSED ∨ st = FAILED)
    ∧ (st = FAILED ↔ ∃ r, r ∈ run_checks w self tpl ∧ critical r).
Proof.
  intros Hat. unfold validate_template. rewrite Hat.
  destruct (critical_failures_spec _ (run_checks_textual w self tpl))
    as (cs & -> & Hcs).
  cbn [mbind result_bind]. eexists. split; [done|].
  destruct cs as [|c cs].
  - split; [auto|]. split; [done|]. intros (r & Hr). apply Hcs in Hr.
    by apply elem_of_nil in Hr.
  - split; [auto|]. split; [|done]. intros _. exists c. apply Hcs. left.
Qed.

(** C1 (the code at the failing input).  The template [broken] has the
    canonical reference and its sandbox is created; [nix flake check] exits
    with 1 and the text [attribute 'mkFlake' missing] on stderr.  The
    classified result is Failed and carries its suggestion, yet the outputs
    check is recorded as Skipped: the gate looks for the words
    [local path issue] in the suggestion, and no suggestion has them. *)
Theorem C1_mkFlake_outputs_check_skipped :
  ∃ r fc,
    validate_template (world_with two_packages) example_validator "broken"
      = Ok r
    ∧ map (λ t, (name t, status t)) (tests r)
      = [("github_url_check", PASSED); ("temp_template_creation", PASSED);
         ("flake_check", FAILED); ("outputs_check", SKIPPED)]
    ∧ tests r !! 2 = Some fc
    ∧ details_get (details fc) "suggestion"
      = VStr "This is expected with local path replacement in build environments"
    ∧ tests r !! 3 = Some outputs_skipped.
Proof.
  eexists _, _. split_and!; [vm_compute; reflexivity|reflexivity..].
Qed.

(** The outputs check runs exactly when the flake check passed: after any
    failed flake check, with or without a suggestion, the third result of
    the sandbox block is the Skipped one. *)
Lemma outputs_check_runs_iff_passed w self tpl error_msg sb :
  tempdir_error tpl = None →
  _create_temp_template self tpl = ((true, error_msg), sb) →
  (sandbox_tests w self tpl).1 =
    [creation_passed; _run_flake_check tpl sb;
     match status (_run_flake_check tpl sb) with
     | PASSED => _check_template_outputs w tpl sb
     | _ => outputs_skipped
     end].
Proof. intros Ht Hc. by rewrite sandbox_tests_cases, Ht, Hc. Qed.

(** C2.  For a template whose directory exists, the overall status is
    Passed exactly when every Failed result among the tests carries a
    tolerated-substitution suggestion, and Failed exactly when some Failed
    result lacks one; Skipped and Passed results play no part. *)
Theorem C2_aggregation_law w self template_name tpl :
  template_at w self template_name = Some tpl →
  ∃ r, validate_template w self template_name = Ok r
    ∧ tests r = run_checks w self tpl
    ∧ (overall_status r = PASSED ↔
         ∀ t, t ∈ tests r → status t = FAILED → tolerated t)
    ∧ (overall_status r = FAILED ↔
         ∃ t, t ∈ tests r ∧ status t = FAILED ∧ ¬ tolerated t).
Proof.
  intros Hat.
  destruct (validate_template_found w self template_name tpl Hat)
    as (st & -> & Hst & Hcrit).
  eexists. split; [done|]. cbn [tests overall_status]. split; [done|].
  split; [|exact Hcrit].
  split.
  - intros -> t Ht Hf.
    pose proof (run_checks_textual w self tpl) as Htx.
    rewrite Forall_forall in Htx. destruct (Htx t Ht) as [s Hs].
    apply (tolerated_textual t s Hs).
    destruct (contains "local path replacement" s) eqn:E1; [auto|].
    destruct (contains "local path issue" s) eqn:E2; [auto|].
    assert (PASSED = FAILED) as Habs; [|done].
    apply Hcrit. exists t. split; [done|]. split; [done|].
    rewrite (tolerated_textual t s Hs). rewrite E1, E2. by intros [?|?].
  - intros Hall. destruct Hst as [->| ->]; [done|].
    destruct (proj1 Hcrit eq_refl) as (t & Ht & Hf & Hn).
    destruct Hn. by apply Hall.
Qed.

Lemma C2_aggregation_law_witness :
  ∃ r, validate_template (world_with two_packages) example_validator "broken"
         = Ok r
    ∧ tests r = run_checks (world_with two_packages) example_validator
                  mkFlake_template
    ∧ (overall_status r = PASSED ↔
         ∀ t, t ∈ tests r → status t = FAILED → tolerated t)
    ∧ (overall_status r = FAILED ↔
         ∃ t, t ∈ tests r ∧ status t = FAILED ∧ ¬ tolerated t).
Proof.
  apply (C2_aggregation_law (world_with two_packages) example_validator
           "broken" mkFlake_template).
  vm_compute. reflexivity.
Defined.

(** C3.  On a manifest that can be read: with the canonical reference in
    it the URL check is Passed; without it the check is Failed and its
    details are the one entry [found_urls], the values of the assignments
    [flake-fhs.url = <quoted value>] of the text, in order of appearance. *)
Theorem C3_github_url_check tpl content :
  flake_nix tpl = ManifestText content →
  let r := _check_template_uses_github_url tpl in
  name r = "github_url_check" ∧
  (contains EXPECTED_GITHUB_URL content = true → status r = PASSED) ∧
  (contains EXPECTED_GITHUB_URL content = false →
     status r = FAILED ∧
     ∃ urls, details r = Some {[ "found_urls" := VList urls ]}
             ∧ Findall content urls
             ∧ urls = _find_flake_urls content).
Proof.
  intros Hm. unfold _check_template_uses_github_url. rewrite Hm.
  destruct (contains EXPECTED_GITHUB_URL content); cbn [try_except_all].
  - by split_and!.
  - split_and!; try done. intros _. split; [done|].
    eexists. split_and!; [done| |done]. apply findall_flake_url_spec.
Qed.

Lemma C3_github_url_check_witness :
  let r := _check_template_uses_github_url fork_template in
  name r = "github_url_check" ∧
  (contains EXPECTED_GITHUB_URL fork_manifest = true → status r = PASSED) ∧
  (contains EXPECTED_GITHUB_URL fork_manifest = false →
     status r = FAILED ∧
     ∃ urls, details r = Some {[ "found_urls" := VList urls ]}
             ∧ Findall fork_manifest urls
             ∧ urls = _find_flake_urls fork_manifest).
Proof. apply (C3_github_url_check fork_template fork_manifest). reflexivity. Defined.

(** The two declared references of the example are found, in order. *)
Example find_flake_urls_fork :
  _find_flake_urls fork_manifest = ["github:someone/fork"; "path:../.."].
Proof. vm_compute. reflexivity. Qed.

(** C4.  When the creation of the sandbox reports success, the manifest of
    the sandbox is the rewritten text; it has no occurrence of the canonical
    reference and has the marker [path:], and replacing once more leaves
    it as it is. *)
Theorem C4_sandbox_rewrite self tpl error_msg sb :
  _create_temp_template self tpl = ((true, error_msg), sb) →
  ∃ content,
    flake_nix tpl = ManifestText content
    ∧ sb = ManifestText (_replace_github_with_local_path self content)
    ∧ contains EXPECTED_GITHUB_URL
        (_replace_github_with_local_path self content) = false
    ∧ contains "path:" (_replace_github_with_local_path self content) = true
    ∧ _replace_github_with_local_path self
        (_replace_github_with_local_path self content)
      = _replace_github_with_local_path self content.
Proof.
  unfold _create_temp_template. intros H.
  destruct (copy_error tpl); [done|].
  destruct (flake_nix tpl) as [|content|e]; [done| |done].
  destruct (write_error tpl); [done|].
  destruct (contains "path:" _) eqn:Hp; [|done].
  destruct (contains EXPECTED_GITHUB_URL _) eqn:Hu; [done|].
  cbn [andb negb] in H. injection H as _ <-.
  exists content. split_and!; try done.
  unfold _replace_github_with_local_path at 1. by apply replace_absent.
Qed.

Lemma C4_sandbox_rewrite_witness :
  ∃ content,
    flake_nix passing_template = ManifestText content
    ∧ (_create_temp_template example_validator passing_template).2
      = ManifestText (_replace_github_with_local_path example_validator content)
    ∧ contains EXPECTED_GITHUB_URL
        (_replace_github_with_local_path example_validator content) = false
    ∧ contains "path:"
        (_replace_github_with_local_path example_validator content) = true
    ∧ _replace_github_with_local_path example_validator
        (_replace_github_with_local_path example_validator content)
      = _replace_github_with_local_path example_validator content.
Proof.
  apply (C4_sandbox_rewrite example_validator passing_template None).
  vm_compute. reflexivity.
Defined.

(** C5, counterexample.  [show] exits with 0 and prints [[]], which
    [json.loads] reads as the empty list; [flake_data.get] raises, the
    handler of the method answers Failed, and the result has no details. *)
Lemma C5_counterexample :
  let w := world_with (JArray []) in
  let r := _check_template_outputs w array_template ManifestAbsent in
  subprocess_run array_template flake_show_cmd ManifestAbsent
    = Exited 0 "[]" ""
  ∧ json_loads w "[]" = Ok (JArray [])
  ∧ status r = FAILED
  ∧ message r
    = "Error checking template outputs: 'list' object has no attribute 'get'"
  ∧ details r = None
  ∧ ¬ output_count_law_unrestricted.
Proof.
  split_and!; try reflexivity.
  intros H.
  destruct (H (world_with (JArray [])) array_template ManifestAbsent
              "[]" "" (JArray []) eq_refl eq_refl) as (p & c & d & a & _ & Hd).
  discriminate Hd.
Qed.

(** C5, amended.  For an output printed with exit code 0 that
    [json.loads] reads: when the four counts are defined for the document,
    the result is Passed exactly when the count of packages is positive,
    Failed exactly when it is zero, whatever the other three counts, and
    its details record the four counts; when a count is undefined, the
    result is Failed without details. *)
Theorem C5_outputs_check_counts w tpl sb out err doc :
  subprocess_run tpl flake_show_cmd sb = Exited 0 out err →
  json_loads w out = Ok doc →
  let r := _check_template_outputs w tpl sb in
  match output_counts doc with
  | Some (p, c, d, a) =>
      (status r = PASSED ↔ 0 < p)
      ∧ (status r = FAILED ↔ p = 0)
      ∧ details r = Some (counts_details (p, c, d, a))
  | None => status r = FAILED ∧ details r = None
  end.
Proof.
  intros Hrun Hdoc.
  destruct (outputs_check_parsed w tpl sb out err doc Hrun Hdoc) as [_ H].
  cbn zeta. destruct (output_counts doc) as [[[[p c] d] a]|]; [|done].
  destruct H as [-> ->]. split_and!; [| |done].
  - destruct (Nat.ltb_spec 0 p); split; try done; lia.
  - destruct (Nat.ltb_spec 0 p); split; try done; lia.
Qed.

Lemma C5_outputs_check_counts_witness :
  let w := world_with two_packages in
  let r := _check_template_outputs w passing_template ManifestAbsent in
  match output_counts two_packages with
  | Some (p, c, d, a) =>
      (status r = PASSED ↔ 0 < p)
      ∧ (status r = FAILED ↔ p = 0)
      ∧ details r = Some (counts_details (p, c, d, a))
  | None => status r = FAILED ∧ details r = None
  end.
Proof.
  apply (C5_outputs_check_counts (world_with two_packages) passing_template
           ManifestAbsent "{}" "" two_packages); reflexivity.
Defined.

(** The example document has two packages, one check and nothing else. *)
Example output_counts_two_packages :
  output_counts two_packages = Some (2, 1, 0, 0).
Proof. vm_compute. reflexivity. Qed.

(** C6.  A flake check that exits with a code other than 0 gives Failed.
    When its stderr text contains a known signature, the details carry
    the suggestion of the first signature of the table that the text
    contains; when it contains none, the details are the return code and
    the standard output, without a suggestion. *)
Theorem C6_flake_check_classification tpl sb rc out err :
  subprocess_run tpl flake_check_cmd sb = Exited rc out err → rc ≠ 0%Z →
  let r := _run_flake_check tpl sb in
  status r = FAILED ∧
  match classify err with
  | Some (_, suggestion) =>
      ∃ d, details r = Some d ∧ d !! "suggestion" = Some (VStr suggestion)
  | None =>
      details r = Some {[ "return_code" := VInt rc; "stdout" := VStr out ]}
      ∧ ∀ d, details r = Some d → d !! "suggestion" = None
  end.
Proof.
  intros H Hrc. unfold_flake_check H.
  apply Z.eqb_neq in Hrc. rewrite Hrc. cbn [negb].
  pose proof known_signatures_unpadded as Hu.
  unfold known_signatures in Hu.
  apply Forall_cons in Hu as [U1 Hu]. apply Forall_cons in Hu as [U2 Hu].
  apply Forall_cons in Hu as [U3 _]. cbn [fst] in U1, U2, U3.
  rewrite !error_msg_contains by (done || reflexivity).
  unfold classify, known_signatures. cbn [find fst].
  destruct (contains "attribute 'mkFlake' missing" err);
    [split; [done|eexists; split; [done|reflexivity]]|].
  destruct (contains "expected a set but found a function" err);
    [split; [done|eexists; split; [done|reflexivity]]|].
  destruct (contains "found circular import of flake" err);
    [split; [done|eexists; split; [done|reflexivity]]|].
  split; [done|]. split; [done|]. by intros d [= <-].
Qed.

Lemma C6_flake_check_classification_witness :
  let r := _run_flake_check mkFlake_template ManifestAbsent in
  status r = FAILED ∧
  match classify "error: attribute 'mkFlake' missing" with
  | Some (_, suggestion) =>
      ∃ d, details r = Some d ∧ d !! "suggestion" = Some (VStr suggestion)
  | None =>
      details r = Some {[ "return_code" := VInt 1; "stdout" := VStr "" ]}
      ∧ ∀ d, details r = Some d → d !! "suggestion" = None
  end.
Proof.
  apply (C6_flake_check_classification mkFlake_template ManifestAbsent 1 ""
           "error: attribute 'mkFlake' missing"); [reflexivity|lia].
Defined.

(** The classification of the three signatures and of another text. *)
Example classify_examples :
  classify "error: attribute 'mkFlake' missing"
    = Some ("attribute 'mkFlake' missing",
            "This is expected with local path replacement in build environments")
  ∧ classify "error: found circular import of flake 'x'"
    = Some ("found circular import of flake",
            "This is expected with local path replacement when testing flake-fhs templates")
  ∧ classify "error: syntax error, unexpected '}'" = None.
Proof. split_and!; reflexivity. Qed.

(** C7.  For a template whose directory exists and whose sandbox creation
    reports a failure, the tests are the URL check, one Failed result
    named [temp_template_creation], and nothing more unless removing the
    temporary directory raises (then the result of the [except] clause
    follows); no result is named [flake_check] or [outputs_check]. *)
Theorem C7_sandbox_creation_failure w self template_name tpl :
  template_at w self template_name = Some tpl →
  tempdir_error tpl = None →
  (_create_temp_template self tpl).1.1 = false →
  ∃ r error_msg,
    validate_template w self template_name = Ok r
    ∧ tests r =
        _check_template_uses_github_url tpl
        :: mkTestResult "temp_template_creation" FAILED error_msg None
        :: match cleanup_error tpl with
           | Some e => [block_failed e]
           | None => []
           end
    ∧ (∀ t, t ∈ tests r →
         name t ≠ "flake_check" ∧ name t ≠ "outputs_check").
Proof.
  intros Hat Htmp Hfail.
  destruct (validate_template_found w self template_name tpl Hat)
    as (st & -> & _).
  assert (name (_check_template_uses_github_url tpl) = "github_url_check")
    as Hname.
  { unfold _check_template_uses_github_url.
    destruct (flake_nix tpl) as [|content|e]; try done.
    by destruct (contains _ content). }
  rewrite run_checks_cases, sandbox_tests_cases, Htmp. cbn [fst snd].
  destruct (_create_temp_template self tpl) as [[[|] error_msg] sb];
    [done|].
  eexists _, (default "" error_msg). split; [done|]. cbn [tests app].
  split; [done|]. intros t Ht.
  apply elem_of_cons in Ht as [->|Ht]; [by rewrite Hname|].
  apply elem_of_cons in Ht as [->|Ht]; [done|].
  destruct (cleanup_error tpl); [|by apply elem_of_nil in Ht].
  apply list_elem_of_singleton in Ht as ->. done.
Qed.

Lemma C7_sandbox_creation_failure_witness :
  ∃ r error_msg,
    validate_template (world_with two_packages) example_validator ".git"
      = Ok r
    ∧ tests r =
        _check_template_uses_github_url empty_template
        :: mkTestResult "temp_template_creation" FAILED error_msg None
        :: match cleanup_error empty_template with
           | Some e => [block_failed e]
           | None => []
           end
    ∧ (∀ t, t ∈ tests r →
         name t ≠ "flake_check" ∧ name t ≠ "outputs_check").
Proof.
  apply (C7_sandbox_creation_failure (world_with two_packages)
           example_validator ".git" empty_template);
    vm_compute; reflexivity.
Defined.

(** When creating the temporary directory raises, the sandbox block
    appends nothing and the [except] clause appends its one result. *)
Lemma tempdir_failure_tests w self tpl e :
  tempdir_error tpl = Some e →
  run_checks w self tpl = [_check_template_uses_github_url tpl; block_failed e].
Proof. intros H. by rewrite run_checks_cases, sandbox_tests_cases, H. Qed.


(** The text of [templates_dir / template_name]: a trailing slash, empty
    and dot components are dropped, an absolute name replaces the
    directory. *)
Example template_path_texts :
  map (template_path example_validator)
    ["simple"; "simple/"; ""; "./a//b/."; ".."; "/tmp/x"]
  = ["/repo/templates/simple"; "/repo/templates/simple"; "/repo/templates";
     "/repo/templates/a/b"; "/repo/templates/.."; "/tmp/x"].
Proof. by vm_compute. Qed.

(** A name need not be the name of an entry.  With a trailing slash the
    path is still that of the entry, the empty name gives the templates
    directory itself, and a name can lead out of the directory and back;
    a file inside a template is no directory. *)
Example template_at_other_names :
  let w := world_with two_packages in
  template_at w example_validator "simple/" = Some passing_template
  ∧ template_at w example_validator "" = Some empty_template
  ∧ template_at w example_validator "../templates/broken"
    = Some mkFlake_template
  ∧ template_at w example_validator "README.md/" = None
  ∧ template_at w example_validator "simple/flake.nix" = None.
Proof. by vm_compute. Qed.

(** For such names too the checks run and no error message is set. *)
Example validate_template_other_names :
  let w := world_with two_packages in
  (∃ r, validate_template w example_validator "simple/" = Ok r
        ∧ error_message r = None ∧ length (tests r) = 4
        ∧ overall_status r = PASSED)
  ∧ (∃ r, validate_template w example_validator "" = Ok r
          ∧ error_message r = None ∧ length (tests r) = 2
          ∧ overall_status r = FAILED).
Proof. split; eexists; by vm_compute. Qed.

(** C10.  For a template whose directory exists and has no manifest, the
    URL check, first of the tests, is Failed with the message that
    [flake.nix] was not found, and has no details. *)
Theorem C10_missing_manifest w self template_name tpl :
  template_at w self template_name = Some tpl →
  flake_nix tpl = ManifestAbsent →
  _check_template_uses_github_url tpl
    = mkTestResult "github_url_check" FAILED
        "flake.nix not found in template" None
  ∧ ∃ r rest,
      validate_template w self template_name = Ok r
      ∧ tests r = _check_template_uses_github_url tpl :: rest.
Proof.
  intros Hat Hm. split.
  - unfold _check_template_uses_github_url. by rewrite Hm.
  - destruct (validate_template_found w self template_name tpl Hat)
      as (st & -> & _).
    rewrite run_checks_cases. by eexists _, _.
Qed.

Lemma C10_missing_manifest_witness :
  _check_template_uses_github_url empty_template
    = mkTestResult "github_url_check" FAILED
        "flake.nix not found in template" None
  ∧ ∃ r rest,
      validate_template (world_with two_packages) example_validator ".git"
        = Ok r
      ∧ tests r = _check_template_uses_github_url empty_template :: rest.
Proof.
  apply (C10_missing_manifest (world_with two_packages) example_validator
           ".git" empty_template); vm_compute; reflexivity.
Defined.

(** *** The batch enumeration *)

Lemma template_at_listing w self entries template_name e :
  listdir w (templates_dir self) = DirectoryOf entries →
  entries !! template_name = Some e →
  template_at w self template_name =
    match e with
    | Directory tpl => Some tpl
    | NotDirectory => None
    end.
Proof. intros H He. unfold template_at, entry_at. by rewrite H, He. Qed.

(** The loop over the directories: every name of the list is mapped to
    its validation result, the other keys are left as they were. *)
Lemma validate_each_spec w self dirs acc :
  ∃ results,
    validate_each w self dirs acc = Ok results
    ∧ ∀ n r, results !! n = Some r ↔
        (n ∈ dirs.*1 ∧ validate_template w self n = Ok r)
        ∨ ((n ∉ dirs.*1) ∧ acc !! n = Some r).
Proof.
  revert acc. induction dirs as [|d dirs IH]; intros acc.
  - exists acc. split; [done|]. intros n r. cbn [fmap list_fmap].
    rewrite elem_of_nil. tauto.
  - destruct (validate_template_returns w self d.1) as [r0 Hr0].
    destruct (IH (<[d.1 := r0]> acc)) as (results & Hres & Hlook).
    exists results. split.
    + cbn [validate_each]. rewrite Hr0. exact Hres.
    + intros n r. rewrite Hlook. rewrite fmap_cons, elem_of_cons.
      destruct (decide (n = d.1)) as [->|Hne].
      * rewrite lookup_insert_eq. split.
        -- intros [[? ?]|[? [= <-]]]; auto.
        -- intros [[_ H]|[H _]]; [|tauto].
           destruct (decide (d.1 ∈ dirs.*1)); [auto|].
           right. split; [done|]. congruence.
      * rewrite lookup_insert_ne by done. tauto.
Qed.

Lemma elem_of_template_dirs entries n :
  n ∈ (List.filter is_template_dir (map_to_list entries)).*1
  ↔ non_hidden_subdirectory entries n.
Proof.
  unfold non_hidden_subdirectory. rewrite list_elem_of_fmap. split.
  - intros ([n' e] & -> & Hin). apply list_elem_of_In, filter_In in Hin.
    destruct Hin as [Hin Hd]. apply list_elem_of_In, elem_of_map_to_list in Hin.
    unfold is_template_dir in Hd. cbn [fst snd] in *.
    destruct e as [|tpl]; [done|]. split; [by exists tpl|].
    by apply negb_true_iff.
  - intros [[tpl Htpl] Hdot]. exists (n, Directory tpl). split; [done|].
    apply list_elem_of_In, filter_In. split.
    + by apply list_elem_of_In, elem_of_map_to_list.
    + unfold is_template_dir. cbn [fst snd]. by rewrite Hdot.
Qed.

(** The batch enumeration on a templates path that is absent or a
    directory.  [validate_all_templates] returns the one synthetic entry
    under the key [error] exactly when nothing exists at the templates path
    or the directory there has no subdirectory whose name does not start
    with a dot.  When the directory has such subdirectories, it returns a
    mapping whose keys are exactly their names, each with the result of
    [validate_template] for that name. *)
Lemma validate_all_templates_spec w self :
  ((∃ results, validate_all_templates w self = Ok results
               ∧ synthetic_error results)
   ↔ (listdir w (templates_dir self) = NoSuchPath
      ∨ ∃ entries, listdir w (templates_dir self) = DirectoryOf entries
                   ∧ ∀ n, ¬ non_hidden_subdirectory entries n))
  ∧ (∀ entries,
       listdir w (templates_dir self) = DirectoryOf entries →
       (∃ n, non_hidden_subdirectory entries n) →
       ∃ results,
         validate_all_templates w self = Ok results
         ∧ (∀ n, is_Some (results !! n)
                 ↔ non_hidden_subdirectory entries n)
         ∧ (∀ n r, results !! n = Some r →
                   validate_template w self n = Ok r)).
Proof.
  assert (∀ entries,
       listdir w (templates_dir self) = DirectoryOf entries →
       (∃ n, non_hidden_subdirectory entries n) →
       ∃ results,
         validate_all_templates w self = Ok results
         ∧ (∀ n, is_Some (results !! n)
                 ↔ non_hidden_subdirectory entries n)
         ∧ (∀ n r, results !! n = Some r →
                   validate_template w self n = Ok r)) as Hlisting.
  { intros entries Hdir [n0 Hn0]. unfold validate_all_templates. rewrite Hdir.
    destruct (validate_each_spec w self
                (List.filter is_template_dir (map_to_list entries)) ∅)
      as (results & Hres & Hlook).
    exists results. split.
    - destruct (List.filter is_template_dir (map_to_list entries)) eqn:E;
        [|done].
      apply elem_of_template_dirs in Hn0. rewrite E in Hn0.
      by apply elem_of_nil in Hn0.
    - split.
      + intros n. rewrite <-elem_of_template_dirs. split.
        * intros [r Hr]. apply Hlook in Hr as [[? _]|[_ Hr]]; [done|].
          by rewrite lookup_empty in Hr.
        * intros Hin.
          destruct (validate_template_returns w self n) as [r Hr].
          exists r. apply Hlook. auto.
      + intros n r Hr. apply Hlook in Hr as [[_ ?]|[_ Hr]]; [done|].
        by rewrite lookup_empty in Hr. }
  split; [|exact Hlisting]. split.
  - intros (results & Hres & msg & ->).
    destruct (listdir w (templates_dir self)) as [|e|entries] eqn:Hdir.
    + by left.
    + unfold validate_all_templates in Hres. by rewrite Hdir in Hres.
    + right. exists entries. split; [done|]. intros n Hn.
      destruct (Hlisting entries eq_refl (ex_intro _ n Hn))
        as (results & Hres' & Hkeys & Hvals).
      rewrite Hres in Hres'. injection Hres' as <-.
      apply Hkeys in Hn as [r Hr].
      destruct (decide (n = "error")) as [->|Hne];
        [|by rewrite lookup_singleton_ne in Hr].
      pose proof (Hvals _ _ Hr) as Hv.
      rewrite lookup_singleton_eq in Hr. injection Hr as <-.
      assert (is_Some (({[ "error" :=
                mkTemplateValidationResult "error" FAILED [] (Some msg) ]}
                : gmap string TemplateValidationResult) !! "error")) as Hsome
        by (rewrite lookup_singleton_eq; by eexists).
      apply Hkeys in Hsome as [[tpl Htpl] _].
      assert (template_at w self "error" = Some tpl) as Hat
        by exact (template_at_listing w self entries "error" _ Hdir Htpl).
      destruct (validate_template_found w self "error" tpl Hat)
        as (st & Hfound & _).
      rewrite Hv in Hfound. discriminate Hfound.
  - intros [Hdir|(entries & Hdir & Hnone)].
    + unfold validate_all_templates. rewrite Hdir. eexists. split; [done|].
      by eexists.
    + unfold validate_all_templates. rewrite Hdir.
      destruct (List.filter is_template_dir (map_to_list entries))
        as [|d dirs] eqn:E.
      * eexists. split; [done|]. by eexists.
      * destruct (Hnone d.1). apply elem_of_template_dirs. rewrite E.
        rewrite fmap_cons. left.
Qed.

(** On a templates path that exists and is no directory the call raises
    what [iterdir] raises. *)
Lemma validate_all_templates_not_a_directory w self e :
  listdir w (templates_dir self) = NotADirectory e →
  validate_all_templates w self = Raise e.
Proof. intros H. unfold validate_all_templates. by rewrite H. Qed.

(** C9 (the code at the failing input).  The templates path is a regular
    file: it exists, so the guard for an absent directory does not answer,
    and listing it raises; no mapping is returned, neither the synthetic
    entry nor another.  [validate_template], on the same world, tests
    [is_dir] too and answers with an error message. *)
Theorem C9_root_not_a_directory :
  validate_all_templates file_root_world example_validator
    = Raise (mk_exception OSError
               "[Errno 20] Not a directory: '/repo/templates'")
  ∧ ∃ r, validate_template file_root_world example_validator "simple" = Ok r
         ∧ is_Some (error_message r) ∧ tests r = [].
Proof. split; [reflexivity|]. eexists. split_and!; [reflexivity|by eexists|done]. Qed.

(** The example listing: the two visible directories are validated, the
    hidden one and the file are not. *)
Example validate_all_templates_example :
  ∃ results,
    validate_all_templates (world_with two_packages) example_validator
      = Ok results
    ∧ (map_to_list results).*1 ≡ₚ ["simple"; "broken"].
Proof.
  eexists. split; [vm_compute; reflexivity|]. vm_compute.
  apply Permutation_swap || reflexivity.
Qed.

End Properties.

(** ** Further properties of the validator and of [main] *)
Module Extras.
Import Str Re TemplateValidator StrFacts ReFacts Spec Examples Report Properties
  StrMore.

(** *** The declared references *)

Lemma assignment_value s v rest :
  assignment s v rest →
  v ≠ EmptyString ∧ all_chars unquoted v = true
  ∧ contains (quoted v) s = true.
Proof.
  intros (w1 & w2 & -> & _ & _ & Hv & Hq). split_and!; try done.
  apply contains_spec.
  exists ("flake-fhs.url" +:+ w1 +:+ "=" +:+ w2), rest. unfold quoted.
  by repeat (rewrite ?append_assoc, ?append_cons, ?append_empty_l).
Qed.

Lemma Findall_values s vs :
  Findall s vs →
  Forall (λ v, v ≠ EmptyString ∧ all_chars unquoted v = true
               ∧ contains (quoted v) s = true) vs.
Proof.
  induction 1 as [|s v rest vs Ha _ IH|c s vs Hn _ IH].
  - constructor.
  - constructor; [by eapply assignment_value|].
    destruct Ha as (w1 & w2 & -> & _).
    eapply Forall_impl; [exact IH|]. intros u (? & ? & Hu). split_and!; try done.
    rewrite <-!append_assoc. apply contains_app_l.
    rewrite <-append_cons. apply contains_app_l.
    change (String dquote rest) with (String dquote EmptyString +:+ rest).
    by apply contains_app_l.
  - eapply Forall_impl; [exact IH|]. intros u (? & ? & Hu). split_and!; try done.
    rewrite contains_cons, Hu. apply orb_true_r.
Qed.

(** X1.  Every reference that [_find_flake_urls] returns is not empty, has
    no double quote in it, and stands between double quotes in the text. *)
Theorem find_flake_urls_values content :
  Forall (λ u, u ≠ EmptyString
               ∧ all_chars unquoted u = true
               ∧ contains (quoted u) content = true)
         (_find_flake_urls content).
Proof. apply Findall_values, findall_flake_url_spec. Qed.

(** X2.  A text in which the words [flake-fhs.url] do not occur declares
    no reference. *)
Theorem find_flake_urls_no_keyword content :
  contains "flake-fhs.url" content = false → _find_flake_urls content = [].
Proof.
  intros Hc. symmetry. apply Findall_functional.
  induction content as [|c s IH]; [constructor|].
  rewrite contains_cons in Hc. apply orb_false_elim in Hc as [Hs Hc].
  apply Findall_skip; [|auto].
  intros v rest (w1 & w2 & Heq & _).
  assert (startswith "flake-fhs.url" (String c s) = true) as Habs; [|congruence].
  apply startswith_spec. eexists. by rewrite Heq.
Qed.

Lemma find_flake_urls_no_keyword_witness :
  _find_flake_urls "{ inputs.nixpkgs.url = 1; }" = [].
Proof. apply find_flake_urls_no_keyword. reflexivity. Defined.

(** *** The rewrite and the creation of the sandbox *)

(** X3.  A manifest without the canonical reference is left as it is. *)
Theorem replace_without_reference self content :
  contains EXPECTED_GITHUB_URL content = false →
  _replace_github_with_local_path self content = content.
Proof. intros H. by apply replace_absent. Qed.

Lemma replace_without_reference_witness :
  _replace_github_with_local_path example_validator fork_manifest
  = fork_manifest.
Proof. apply replace_without_reference. reflexivity. Defined.

Lemma replace_leaves_marker self content :
  contains EXPECTED_GITHUB_URL content = true →
  contains ("path:" +:+ project_root self)
    (_replace_github_with_local_path self content) = true
  ∧ contains "path:" (_replace_github_with_local_path self content) = true.
Proof.
  intros H.
  assert (contains ("path:" +:+ project_root self)
            (_replace_github_with_local_path self content) = true) as Hp
    by (by apply replace_present).
  split; [done|]. by apply contains_prefix in Hp.
Qed.

(** X4.  A manifest with the canonical reference is rewritten into a text
    that has the local reference: [path:] and then the project root. *)
Theorem replace_with_reference self content :
  contains EXPECTED_GITHUB_URL content = true →
  contains ("path:" +:+ project_root self)
    (_replace_github_with_local_path self content) = true
  ∧ contains "path:" (_replace_github_with_local_path self content) = true.
Proof. apply replace_leaves_marker. Qed.

Lemma replace_with_reference_witness :
  contains ("path:" +:+ project_root example_validator)
    (_replace_github_with_local_path example_validator canonical_manifest)
  = true
  ∧ contains "path:"
      (_replace_github_with_local_path example_validator canonical_manifest)
    = true.
Proof. apply replace_with_reference. reflexivity. Defined.



(** X6.  When nothing raises and the manifest has the canonical reference,
    the sandbox gets the rewritten manifest, and the creation fails only
    when the rewritten text still has the canonical reference: the marker
    [path:] is never what is missing. *)
Theorem create_with_reference self tpl content :
  copy_error tpl = None → write_error tpl = None →
  flake_nix tpl = ManifestText content →
  contains EXPECTED_GITHUB_URL content = true →
  _create_temp_template self tpl =
    (if contains EXPECTED_GITHUB_URL
          (_replace_github_with_local_path self content)
     then (false, Some "Failed to replace GitHub URL with local path")
     else (true, None),
     ManifestText (_replace_github_with_local_path self content)).
Proof.
  intros Hc Hw Hm Hu. unfold _create_temp_template. rewrite Hc, Hm, Hw.
  destruct (replace_leaves_marker self content Hu) as [_ Hp].
  cbv zeta. rewrite Hp.
  by destruct (contains EXPECTED_GITHUB_URL
                 (_replace_github_with_local_path self content)).
Qed.

Lemma create_with_reference_witness :
  _create_temp_template example_validator passing_template =
    (if contains EXPECTED_GITHUB_URL
          (_replace_github_with_local_path example_validator canonical_manifest)
     then (false, Some "Failed to replace GitHub URL with local path")
     else (true, None),
     ManifestText
       (_replace_github_with_local_path example_validator canonical_manifest)).
Proof.
  apply (create_with_reference example_validator passing_template
           canonical_manifest); reflexivity.
Defined.

(** A project root that brings the canonical reference back: the creation
    fails although the manifest was rewritten. *)
Example create_with_reference_in_root :
  (_create_temp_template
     (TemplateValidator.mk "/t" "/src/github:luochen1990/flake-fhs")
     passing_template).1
  = (false, Some "Failed to replace GitHub URL with local path").
Proof. vm_compute. reflexivity. Qed.

(** X7.  The answer of [_create_temp_template] is [(True, None)] or
    [(False, message)]: success has no message, failure has one. *)
Theorem create_answer_shape self tpl :
  (_create_temp_template self tpl).1 = (true, None)
  ∨ ∃ error_msg, (_create_temp_template self tpl).1 = (false, Some error_msg).
Proof.
  unfold _create_temp_template.
  destruct (copy_error tpl); [right; by eexists|].
  destruct (flake_nix tpl); try (right; by eexists).
  destruct (write_error tpl); [right; by eexists|].
  destruct (_ && _); [by left|right; by eexists].
Qed.

(** *** The tests of a template and its overall status *)

Lemma url_check_name tpl :
  name (_check_template_uses_github_url tpl) = "github_url_check".
Proof.
  unfold _check_template_uses_github_url.
  destruct (flake_nix tpl) as [|content|e]; try done.
  by destruct (contains _ content).
Qed.

Lemma url_check_status tpl :
  status (_check_template_uses_github_url tpl) = PASSED
  ∨ status (_check_template_uses_github_url tpl) = FAILED.
Proof.
  unfold _check_template_uses_github_url.
  destruct (flake_nix tpl) as [|content|e]; auto.
  destruct (contains _ content); auto.
Qed.

Lemma flake_check_status tpl sb :
  status (_run_flake_check tpl sb) = PASSED
  ∨ status (_run_flake_check tpl sb) = FAILED.
Proof.
  destruct (subprocess_run tpl flake_check_cmd sb) as [rc out err| |e] eqn:H;
    unfold_flake_check H; auto.
  destruct (negb (rc =? 0)%Z); auto.
  repeat match goal with
         | |- context [if ?b then _ else _] => destruct b
         end; auto.
Qed.

Lemma outputs_check_status w tpl sb :
  status (_check_template_outputs w tpl sb) = PASSED
  ∨ status (_check_template_outputs w tpl sb) = FAILED.
Proof.
  destruct (subprocess_run tpl flake_show_cmd sb) as [rc out err| |e] eqn:H.
  - destruct (decide (rc = 0%Z)) as [->|Hrc].
    + destruct (json_loads w out) as [doc|e] eqn:Hdoc.
      * destruct (outputs_check_parsed w tpl sb out err doc H Hdoc) as [_ Hd].
        destruct (output_counts doc) as [[[[p c] d] a]|];
          destruct Hd as [-> _]; [destruct (0 <? p)|]; auto.
      * unfold _check_template_outputs, _run_command. rewrite H.
        cbn [mbind result_bind returncode stdout stderr Z.eqb negb].
        rewrite Hdoc. cbn [mbind result_bind try_except].
        destruct (decide _); auto.
    + unfold _check_template_outputs, _run_command. rewrite H.
      cbn [mbind result_bind returncode stdout stderr].
      apply Z.eqb_neq in Hrc. rewrite Hrc. auto.
  - unfold _check_template_outputs, _run_command. rewrite H. auto.
  - unfold _check_template_outputs, _run_command. rewrite H. auto.
Qed.

(** The five shapes of the tests of a template, by what happened to the
    temporary directory and to the creation of the sandbox. *)
Lemma run_checks_shapes w self tpl :
  let url := _check_template_uses_github_url tpl in
  (∃ e, run_checks w self tpl = [url; block_failed e])
  ∨ (∃ msg, run_checks w self tpl = [url; creation_failed msg])
  ∨ (∃ msg e, run_checks w self tpl = [url; creation_failed msg; block_failed e])
  ∨ (∃ sb last tail,
       run_checks w self tpl
         = [url; creation_passed; _run_flake_check tpl sb; last] ++ tail
       ∧ (status (_run_flake_check tpl sb) = PASSED
            ∧ last = _check_template_outputs w tpl sb
          ∨ status (_run_flake_check tpl sb) = FAILED
            ∧ last = outputs_skipped)
       ∧ (tail = [] ∨ ∃ e, tail = [block_failed e])).
Proof.
  cbv zeta. rewrite run_checks_cases, sandbox_tests_cases.
  destruct (tempdir_error tpl) as [e|]; [left; by exists e|]. cbn [fst snd].
  destruct (_create_temp_template self tpl) as [[[|] msg] sb].
  - right; right; right. exists sb. eexists _, _. split; [reflexivity|]. split.
    + destruct (flake_check_status tpl sb) as [H|H]; rewrite H; auto.
    + destruct (cleanup_error tpl) as [e|]; [right; by exists e|by left].
  - destruct (cleanup_error tpl) as [e|].
    + right; right; left. by exists msg, e.
    + right; left. by exists msg.
Qed.

(** X8.  For a template whose directory exists, the names of the tests
    are, in order: the URL check, then either the result of the [except]
    clause alone, or the creation of the sandbox, after which the flake
    check and the outputs check follow together when the sandbox was
    created; the result of the [except] clause may close the list.  There
    are between two and five tests. *)
Theorem tests_names w self template_name tpl :
  template_at w self template_name = Some tpl →
  ∃ r, validate_template w self template_name = Ok r
    ∧ map name (tests r) ∈
        [ ["github_url_check"; "temp_template_tests"];
          ["github_url_check"; "temp_template_creation"];
          ["github_url_check"; "temp_template_creation"; "temp_template_tests"];
          ["github_url_check"; "temp_template_creation"; "flake_check";
           "outputs_check"];
          ["github_url_check"; "temp_template_creation"; "flake_check";
           "outputs_check"; "temp_template_tests"] ].
Proof.
  intros Hat.
  destruct (validate_template_found w self template_name tpl Hat)
    as (st & -> & _).
  eexists. split; [done|]. cbn [tests].
  destruct (run_checks_shapes w self tpl)
    as [[e ->]|[[msg ->]|[(msg & e & ->)|(sb & last & tail & -> & Hl & Ht)]]];
    cbn [map name app]; rewrite ?url_check_name.
  - rewrite !elem_of_cons; auto 10.
  - rewrite !elem_of_cons; auto 10.
  - rewrite !elem_of_cons; auto 10.
  - rewrite flake_check_name.
    assert (name last = "outputs_check") as ->.
    { destruct Hl as [[_ ->]|[_ ->]]; [|done]. apply outputs_check_suggestion. }
    destruct Ht as [->|[e ->]]; cbn [map name app];
      rewrite !elem_of_cons; auto 10.
Qed.

Lemma tests_names_witness :
  ∃ r, validate_template (world_with two_packages) example_validator "simple"
         = Ok r
    ∧ map name (tests r) ∈
        [ ["github_url_check"; "temp_template_tests"];
          ["github_url_check"; "temp_template_creation"];
          ["github_url_check"; "temp_template_creation"; "temp_template_tests"];
          ["github_url_check"; "temp_template_creation"; "flake_check";
           "outputs_check"];
          ["github_url_check"; "temp_template_creation"; "flake_check";
           "outputs_check"; "temp_template_tests"] ].
Proof.
  apply (tests_names (world_with two_packages) example_validator "simple"
           passing_template).
  vm_compute. reflexivity.
Defined.

(** The suggestion of every result but that of the flake check is empty. *)
Lemma run_checks_suggestions w self tpl :
  Forall (λ t, name t = "flake_check"
               ∨ details_get (details t) "suggestion" = VStr "")
         (run_checks w self tpl).
Proof.
  pose proof (url_check_suggestion tpl) as Hurl.
  destruct (run_checks_shapes w self tpl)
    as [[e ->]|[[msg ->]|[(msg & e & ->)|(sb & last & tail & -> & Hl & Ht)]]].
  - repeat apply Forall_cons_2; auto.
  - repeat apply Forall_cons_2; auto.
  - repeat apply Forall_cons_2; auto.
  - assert (details_get (details last) "suggestion" = VStr "") as Hlast.
    { destruct Hl as [[_ ->]|[_ ->]]; [|done]. apply outputs_check_suggestion. }
    pose proof (flake_check_name tpl sb) as Hfc.
    destruct Ht as [->|[e ->]]; cbn [app]; repeat apply Forall_cons_2; auto.
Qed.

Lemma not_tolerated_empty t :
  details_get (details t) "suggestion" = VStr "" → ¬ tolerated t.
Proof. intros Hs Ht. apply (tolerated_textual t _ Hs) in Ht. by destruct Ht. Qed.

Lemma critical_other_check w self tpl t :
  t ∈ run_checks w self tpl →
  status t = FAILED → name t ≠ "flake_check" → critical t.
Proof.
  intros Ht Hf Hn. split; [done|].
  pose proof (run_checks_suggestions w self tpl) as Hs.
  rewrite Forall_forall in Hs. destruct (Hs t Ht) as [?|Hempty]; [done|].
  by apply not_tolerated_empty.
Qed.

(** X10.  Only the flake check can fail without failing the template: a
    Failed result of any other name makes the overall status Failed. *)
Theorem only_flake_check_tolerated w self template_name tpl :
  template_at w self template_name = Some tpl →
  ∃ r, validate_template w self template_name = Ok r
       ∧ ∀ t, t ∈ tests r → status t = FAILED → name t ≠ "flake_check" →
              overall_status r = FAILED.
Proof.
  intros Hat.
  destruct (validate_template_found w self template_name tpl Hat)
    as (st & -> & _ & Hcrit).
  eexists. split; [done|]. cbn [overall_status tests]. intros t Ht Hf Hn.
  apply Hcrit. exists t. split; [done|].
  by apply (critical_other_check w self tpl).
Qed.

Lemma only_flake_check_tolerated_witness :
  ∃ r, validate_template (world_with two_packages) example_validator ".git"
         = Ok r
       ∧ ∀ t, t ∈ tests r → status t = FAILED → name t ≠ "flake_check" →
              overall_status r = FAILED.
Proof.
  apply (only_flake_check_tolerated (world_with two_packages)
           example_validator ".git" empty_template).
  vm_compute. reflexivity.
Defined.

(** X9.  A template without a manifest that has the canonical reference
    (no manifest, one that cannot be read, or one without the reference)
    fails overall, whatever the other checks say. *)
Theorem missing_reference_fails w self template_name tpl :
  template_at w self template_name = Some tpl →
  (∀ content, flake_nix tpl = ManifestText content →
              contains EXPECTED_GITHUB_URL content = false) →
  ∃ r, validate_template w self template_name = Ok r
       ∧ overall_status r = FAILED.
Proof.
  intros Hat Hm.
  destruct (validate_template_found w self template_name tpl Hat)
    as (st & -> & _ & Hcrit).
  eexists. split; [done|]. cbn [overall_status]. apply Hcrit.
  exists (_check_template_uses_github_url tpl). split.
  - rewrite run_checks_cases. left.
  - apply (critical_other_check w self tpl).
    + rewrite run_checks_cases. left.
    + unfold _check_template_uses_github_url.
      destruct (flake_nix tpl) as [|content|e]; try done.
      by rewrite (Hm content eq_refl).
    + by rewrite url_check_name.
Qed.

Lemma missing_reference_fails_witness :
  ∃ r, validate_template (world_with two_packages) example_validator ".git"
         = Ok r
       ∧ overall_status r = FAILED.
Proof.
  apply (missing_reference_fails (world_with two_packages) example_validator
           ".git" empty_template); [vm_compute; reflexivity|].
  intros content H. discriminate H.
Defined.

Lemma validate_template_passed_iff w self template_name tpl :
  template_at w self template_name = Some tpl →
  ∃ st,
    validate_template w self template_name =
      Ok (mkTemplateValidationResult template_name st
            (run_checks w self tpl) None)
    ∧ (st = PASSED ↔
         ∀ t, t ∈ run_checks w self tpl → status t = FAILED → tolerated t).
Proof.
  intros Hat.
  destruct (validate_template_found w self template_name tpl Hat)
    as (st & Hv & Hst & Hcrit).
  exists st. split; [done|]. split.
  - intros -> t Ht Hf.
    pose proof (run_checks_textual w self tpl) as Htx.
    rewrite Forall_forall in Htx. destruct (Htx t Ht) as [s Hs].
    apply (tolerated_textual t s Hs).
    destruct (contains "local path replacement" s) eqn:E1; [auto|].
    destruct (contains "local path issue" s) eqn:E2; [auto|].
    assert (PASSED = FAILED) as Habs; [|done].
    apply Hcrit. exists t. split; [done|]. split; [done|].
    rewrite (tolerated_textual t s Hs). rewrite E1, E2. by intros [?|?].
  - intros Hall. destruct Hst as [->| ->]; [done|].
    destruct (proj1 Hcrit eq_refl) as (t & Ht & Hf & Hn).
    destruct Hn. by apply Hall.
Qed.

(** X11.  A template passes overall in exactly two ways: its four checks
    pass; or the URL check and the creation of the sandbox pass, the flake
    check fails with a tolerated suggestion, and the outputs check is
    skipped.  In both the tests are four, and no exception left the
    sandbox block. *)
Theorem overall_passed_shapes w self template_name tpl :
  template_at w self template_name = Some tpl →
  ∃ r, validate_template w self template_name = Ok r
    ∧ (overall_status r = PASSED ↔
         map status (tests r) = [PASSED; PASSED; PASSED; PASSED]
         ∨ (map status (tests r) = [PASSED; PASSED; FAILED; SKIPPED]
            ∧ ∃ flake_check_result,
                tests r !! 2 = Some flake_check_result
                ∧ tolerated flake_check_result)).
Proof.
  intros Hat.
  destruct (validate_template_passed_iff w self template_name tpl Hat)
    as (st & -> & Hst).
  eexists. split; [done|]. cbn [overall_status tests]. rewrite Hst. clear Hst.
  pose proof (critical_other_check w self tpl) as Hother.
  pose proof (url_check_name tpl) as Hurl.
  destruct (run_checks_shapes w self tpl)
    as [[e Hr]|[[msg Hr]|[(msg & e & Hr)|(sb & last & tail & Hr & Hl & Ht)]]];
    rewrite Hr in *; cbn [map status app].
  - split; [|by intros [?|[? _]]]. intros Hall.
    destruct (Hother (block_failed e)) as [_ Hn]; try done.
    { rewrite !elem_of_cons; auto. }
    destruct Hn. apply Hall; [|done]. rewrite !elem_of_cons; auto.
  - split; [|by intros [?|[? _]]]. intros Hall.
    destruct (Hother (creation_failed msg)) as [_ Hn]; try done.
    { rewrite !elem_of_cons; auto. }
    destruct Hn. apply Hall; [|done]. rewrite !elem_of_cons; auto.
  - split; [|by intros [?|[? _]]]. intros Hall.
    destruct (Hother (creation_failed msg)) as [_ Hn]; try done.
    { rewrite !elem_of_cons; auto. }
    destruct Hn. apply Hall; [|done]. rewrite !elem_of_cons; auto.
  - pose proof (flake_check_name tpl sb) as Hfc.
    set (url := _check_template_uses_github_url tpl) in *.
    set (fc := _run_flake_check tpl sb) in *.
    assert (name last = "outputs_check") as Hlast.
    { destruct Hl as [[_ ->]|[_ ->]]; [|done]. apply outputs_check_suggestion. }
    split.
    + intros Hall.
      assert (∀ t, t ∈ [url; creation_passed; fc; last] ++ tail →
                   name t ≠ "flake_check" → status t ≠ FAILED) as Hok.
      { intros t Hin Hn Hf. destruct (Hother t Hin Hf Hn) as [_ Hnt].
        destruct Hnt. by apply Hall. }
      assert (tail = []) as ->.
      { destruct Ht as [->|[e ->]]; [done|].
        destruct (Hok (block_failed e)); try done.
        cbn [app]. rewrite !elem_of_cons; auto 10. }
      cbn [app map] in *.
      assert (status url = PASSED) as ->.
      { destruct (url_check_status tpl) as [?|Hf]; [done|].
        destruct (Hok url); try done; [left|by rewrite Hurl]. }
      destruct Hl as [[Hp ->]|[Hf ->]].
      * left. rewrite Hp.
        destruct (outputs_check_status w tpl sb) as [->|Hf]; [done|].
        destruct (Hok (_check_template_outputs w tpl sb)); try done;
          [rewrite !elem_of_cons; auto 10|by rewrite Hlast].
      * right. rewrite Hf. split; [done|]. exists fc. split; [done|].
        apply Hall; [|done]. rewrite !elem_of_cons; auto 10.
    + intros [Hs|[Hs (fc' & Hfc' & Htol)]] t Hin Hf.
      * destruct tail; [|done]. cbn [app map] in *.
        injection Hs as H1 H2 H3. apply elem_of_cons in Hin as [->|Hin]; [congruence|].
        apply elem_of_cons in Hin as [->|Hin]; [done|].
        apply elem_of_cons in Hin as [->|Hin]; [congruence|].
        apply list_elem_of_singleton in Hin as ->. congruence.
      * destruct tail; [|done]. cbn [app map] in *.
        injection Hs as H1 H2 H3. injection Hfc' as <-.
        apply elem_of_cons in Hin as [->|Hin]; [congruence|].
        apply elem_of_cons in Hin as [->|Hin]; [done|].
        apply elem_of_cons in Hin as [->|Hin]; [done|].
        apply list_elem_of_singleton in Hin as ->. congruence.
Qed.

Lemma overall_passed_shapes_witness :
  ∃ r, validate_template (world_with two_packages) example_validator "broken"
         = Ok r
    ∧ (overall_status r = PASSED ↔
         map status (tests r) = [PASSED; PASSED; PASSED; PASSED]
         ∨ (map status (tests r) = [PASSED; PASSED; FAILED; SKIPPED]
            ∧ ∃ flake_check_result,
                tests r !! 2 = Some flake_check_result
                ∧ tolerated flake_check_result)).
Proof.
  apply (overall_passed_shapes (world_with two_packages) example_validator
           "broken" mkFlake_template).
  vm_compute. reflexivity.
Defined.

(** *** Commands that do not complete, and outputs that cannot be read *)

(** X12.  When the flake check does not complete (the command times out
    or cannot be started), its result is Failed without details, the
    outputs check is skipped, and the template fails overall. *)
Theorem flake_check_not_completed w self template_name tpl error_msg sb :
  template_at w self template_name = Some tpl →
  tempdir_error tpl = None →
  _create_temp_template self tpl = ((true, error_msg), sb) →
  (∀ rc out err, subprocess_run tpl flake_check_cmd sb ≠ Exited rc out err) →
  ∃ r flake_check_result tail,
    validate_template w self template_name = Ok r
    ∧ tests r = [_check_template_uses_github_url tpl; creation_passed;
                 flake_check_result; outputs_skipped] ++ tail
    ∧ name flake_check_result = "flake_check"
    ∧ status flake_check_result = FAILED
    ∧ details flake_check_result = None
    ∧ overall_status r = FAILED.
Proof.
  intros Hat Htmp Hcreate Hrun.
  destruct (validate_template_found w self template_name tpl Hat)
    as (st & -> & _ & Hcrit).
  assert (status (_run_flake_check tpl sb) = FAILED
          ∧ details (_run_flake_check tpl sb) = None) as [Hf Hd].
  { destruct (subprocess_run tpl flake_check_cmd sb) as [rc out err| |e] eqn:H;
      [by destruct (Hrun rc out err)| |]; by unfold_flake_check H. }
  assert (run_checks w self tpl =
            [_check_template_uses_github_url tpl; creation_passed;
             _run_flake_check tpl sb; outputs_skipped]
            ++ match cleanup_error tpl with
               | Some e => [block_failed e]
               | None => []
               end) as Hr.
  { rewrite run_checks_cases, sandbox_tests_cases, Htmp, Hcreate.
    cbn [fst snd]. by rewrite Hf. }
  eexists _, (_run_flake_check tpl sb), _. split; [done|]. cbn [tests overall_status].
  split_and!; [exact Hr|apply flake_check_name|done|done|].
  apply Hcrit. exists (_run_flake_check tpl sb). split.
  - rewrite Hr. cbn [app]. rewrite !elem_of_cons. auto.
  - split; [done|]. intros (d & s & Hd' & _). congruence.
Qed.

(** A template whose flake check times out. *)
Lemma flake_check_not_completed_witness :
  let tpl := template_with (ManifestText canonical_manifest)
               TimeoutExpired (Exited 0 "{}" "") in
  let w := mkWorld (λ _, DirectoryOf {[ "slow" := Directory tpl ]})
             (λ _, Ok JNull) (stat_of {[ "slow" := Directory tpl ]}) in
  ∃ r flake_check_result tail,
    validate_template w example_validator "slow" = Ok r
    ∧ tests r = [_check_template_uses_github_url tpl; creation_passed;
                 flake_check_result; outputs_skipped] ++ tail
    ∧ name flake_check_result = "flake_check"
    ∧ status flake_check_result = FAILED
    ∧ details flake_check_result = None
    ∧ overall_status r = FAILED.
Proof.
  cbv zeta.
  eapply (flake_check_not_completed _ example_validator "slow" _ None
            (ManifestText
               (_replace_github_with_local_path example_validator
                  canonical_manifest))).
  - reflexivity.
  - reflexivity.
  - vm_compute. reflexivity.
  - intros rc out err. vm_compute. discriminate.
Defined.

(** The message of a flake check that timed out names the command. *)
Example flake_check_timeout_message :
  message (_run_flake_check
             (template_with ManifestAbsent TimeoutExpired TimeoutExpired)
             ManifestAbsent)
  = "Error running nix flake check: Command timed out: nix --extra-experimental-features nix-command --extra-experimental-features flakes flake check --no-build --quiet".
Proof. vm_compute. reflexivity. Qed.

(** X13.  When the command exits with 0 and its output is no JSON, the
    outputs check is Failed and its details are the one entry
    [raw_output]: a prefix of the output of at most 500 characters, the
    whole output when that is not longer. *)
Theorem outputs_check_unparsable w tpl sb out err e :
  subprocess_run tpl flake_show_cmd sb = Exited 0 out err →
  json_loads w out = Raise e → class_of e = JSONDecodeError →
  let r := _check_template_outputs w tpl sb in
  status r = FAILED
  ∧ message r = "Failed to parse flake show JSON: " +:+ str e
  ∧ ∃ raw, details r = Some {[ "raw_output" := VStr raw ]}
           ∧ String.length raw = Nat.min 500 (String.length out)
           ∧ startswith raw out = true
           ∧ (String.length out ≤ 500 → raw = out).
Proof.
  intros Hrun Hdoc Hcls. unfold _check_template_outputs, _run_command.
  rewrite Hrun. cbn [mbind result_bind returncode stdout stderr Z.eqb negb].
  rewrite Hdoc. cbn [mbind result_bind try_except].
  rewrite decide_True by done. cbn [try_except_all status message details].
  split_and!; try done. eexists. split; [done|].
  split_and!; [apply take_length|apply take_startswith|apply take_all].
Qed.

Lemma outputs_check_unparsable_witness :
  let w := mkWorld (λ _, NoSuchPath)
             (λ _, Raise (mk_exception JSONDecodeError
                            "Expecting value: line 1 column 1 (char 0)"))
             (λ _, None) in
  let tpl := template_with ManifestAbsent (Exited 0 "" "")
               (Exited 0 "warning: not json" "") in
  let r := _check_template_outputs w tpl ManifestAbsent in
  status r = FAILED
  ∧ message r = "Failed to parse flake show JSON: "
                +:+ "Expecting value: line 1 column 1 (char 0)"
  ∧ ∃ raw, details r = Some {[ "raw_output" := VStr raw ]}
           ∧ String.length raw = Nat.min 500 (String.length "warning: not json")
           ∧ startswith raw "warning: not json" = true
           ∧ (String.length "warning: not json" ≤ 500
              → raw = "warning: not json").
Proof.
  cbv zeta.
  eapply (outputs_check_unparsable _ _ ManifestAbsent "warning: not json" ""
            (mk_exception JSONDecodeError
               "Expecting value: line 1 column 1 (char 0)"));
    reflexivity.
Defined.

(** X14.  A document that lists no packages, or lists packages for other
    platforms only, never passes the outputs check. *)
Theorem outputs_check_without_packages w tpl sb out err members :
  subprocess_run tpl flake_show_cmd sb = Exited 0 out err →
  json_loads w out = Ok (JObject members) →
  (members !! "packages" = None
   ∨ ∃ platforms, members !! "packages" = Some (JObject platforms)
                  ∧ platforms !! "x86_64-linux" = None) →
  status (_check_template_outputs w tpl sb) = FAILED.
Proof.
  intros Hrun Hdoc Hp.
  destruct (outputs_check_parsed w tpl sb out err _ Hrun Hdoc) as [_ H].
  set (r := _check_template_outputs w tpl sb) in *. clearbody r.
  assert (category_count (JObject members) "packages" = Some 0) as Hc.
  { unfold category_count. destruct Hp as [->|(platforms & -> & ->)]; done. }
  unfold output_counts in H. rewrite Hc in H. cbn [mbind option_bind] in H.
  destruct (category_count (JObject members) "checks");
    cbn [mbind option_bind] in H; [|by destruct H].
  destruct (category_count (JObject members) "devShells");
    cbn [mbind option_bind] in H; [|by destruct H].
  destruct (category_count (JObject members) "apps");
    cbn [mbind option_bind] in H; [|by destruct H].
  by destruct H.
Qed.

Lemma outputs_check_without_packages_witness :
  status (_check_template_outputs
            (world_with (JObject {[ "packages" :=
                           JObject {[ "aarch64-darwin" :=
                                        JObject {[ "hello" := JNull ]} ]} ]}))
            passing_template ManifestAbsent)
  = FAILED.
Proof.
  eapply (outputs_check_without_packages _ passing_template ManifestAbsent
            "{}" "").
  - reflexivity.
  - reflexivity.
  - right. eexists. split; reflexivity.
Defined.

(** *** The batch and its keys *)

Lemma validate_template_name w self n r :
  validate_template w self n = Ok r → template_name r = n.
Proof.
  unfold validate_template.
  destruct (template_at w self n) as [tpl|]; [|by intros [= <-]].
  destruct (critical_failures _); [|done]. cbn [mbind result_bind].
  by intros [= <-].
Qed.

Lemma validate_template_textual w self n r :
  validate_template w self n = Ok r → Forall textual (tests r).
Proof.
  unfold validate_template.
  destruct (template_at w self n) as [tpl|];
    [|intros [= <-]; constructor].
  destruct (critical_failures _); [|done]. cbn [mbind result_bind].
  intros [= <-]. apply run_checks_textual.
Qed.

(** When the templates path is absent or a directory, the batch returns. *)
Lemma validate_all_templates_returns w self :
  (∀ e, listdir w (templates_dir self) ≠ NotADirectory e) →
  ∃ results,
    validate_all_templates w self = Ok results
    ∧ ∀ n r, results !! n = Some r →
        (n = "error" ∧ synthetic_error results)
        ∨ validate_template w self n = Ok r.
Proof.
  intros Hdir. unfold validate_all_templates.
  destruct (listdir w (templates_dir self)) as [|e|entries];
    [|by destruct (Hdir e)|].
  - eexists. split; [done|]. intros n r Hr. left. unfold error_entry in Hr.
    apply lookup_singleton_Some in Hr as [<- _]. split; [done|by eexists].
  - destruct (List.filter is_template_dir (map_to_list entries)) as [|d dirs].
    + eexists. split; [done|]. intros n r Hr. left. unfold error_entry in Hr.
      apply lookup_singleton_Some in Hr as [<- _]. split; [done|by eexists].
    + destruct (validate_each_spec w self (d :: dirs) ∅)
        as (results & -> & Hlook).
      exists results. split; [done|]. intros n r Hr. right.
      apply Hlook in Hr as [[_ ?]|[_ Hr]]; [done|].
      by rewrite lookup_empty in Hr.
Qed.

(** X15.  On a templates path that is absent or a directory,
    [validate_all_templates] returns the one synthetic entry under the key
    [error] exactly when nothing is at the path or the directory has no
    subdirectory whose name does not start with a dot; when it has such
    subdirectories the keys of the mapping are exactly their names (hidden
    directories and files are left out), each with the result of
    [validate_template] for that name. *)
Theorem batch_keys_and_results w self :
  ((∃ results, validate_all_templates w self = Ok results
               ∧ synthetic_error results)
   ↔ (listdir w (templates_dir self) = NoSuchPath
      ∨ ∃ entries, listdir w (templates_dir self) = DirectoryOf entries
                   ∧ ∀ n, ¬ non_hidden_subdirectory entries n))
  ∧ (∀ entries,
       listdir w (templates_dir self) = DirectoryOf entries →
       (∃ n, non_hidden_subdirectory entries n) →
       ∃ results,
         validate_all_templates w self = Ok results
         ∧ (∀ n, is_Some (results !! n)
                 ↔ non_hidden_subdirectory entries n)
         ∧ (∀ n r, results !! n = Some r →
                   validate_template w self n = Ok r)).
Proof. apply validate_all_templates_spec. Qed.

(** X16.  In the mapping that [validate_all_templates] returns, every
    result is filed under its own [template_name], the synthetic one
    included. *)
Theorem results_keyed_by_template_name w self results n r :
  validate_all_templates w self = Ok results →
  results !! n = Some r →
  template_name r = n.
Proof.
  intros Hres Hr.
  assert (∀ e, listdir w (templates_dir self) ≠ NotADirectory e) as Hdir.
  { intros e He. unfold validate_all_templates in Hres. by rewrite He in Hres. }
  destruct (validate_all_templates_returns w self Hdir) as (results' & Hres' & Hk).
  rewrite Hres in Hres'. injection Hres' as <-.
  destruct (Hk n r Hr) as [[-> [msg ->]]|Hv].
  - apply lookup_singleton_Some in Hr as [_ <-]. done.
  - by apply validate_template_name in Hv.
Qed.

Lemma results_keyed_by_template_name_witness :
  let results :=
    match validate_all_templates (world_with two_packages) example_validator with
    | Ok results => results
    | Raise _ => ∅
    end in
  let r := default (mkTemplateValidationResult "" FAILED [] None)
             (results !! "simple") in
  template_name r = "simple".
Proof.
  cbv zeta.
  eapply (results_keyed_by_template_name (world_with two_packages)
            example_validator);
    vm_compute; reflexivity.
Defined.

(** *** The icons of the text format *)

Lemma mapM_result {A B} (f : A → result B) (g : A → B) (l : list A) :
  Forall (λ x, f x = Ok (g x)) l → mapM f l = Ok (map g l).
Proof.
  induction 1 as [|x l Hx _ IH]; [done|].
  cbn [mapM map]. rewrite Hx. cbn [mbind result_bind].
  change ((fix go (l0 : list A) : result (list B) :=
             match l0 with
             | [] => mret []
             | x0 :: l1 => f x0 ≫= λ y, go l1 ≫= λ k, mret (y :: k)
             end) l) with (mapM f l).
  by rewrite IH.
Qed.

Lemma test_icon_spec t s :
  details_get (details t) "suggestion" = VStr s →
  Cli.test_icon t = Ok (icon_of t s).
Proof.
  unfold Cli.test_icon, icon_of, details_get. intros Hs.
  destruct (status t); try done.
  destruct (details t) as [d|]; cbn [default from_option id] in Hs.
  - destruct (decide (size d = 0)) as [Hz|Hz].
    + apply map_size_empty_iff in Hz. subst d. rewrite lookup_empty in Hs.
      by injection Hs as <-.
    + by rewrite Hs.
  - rewrite lookup_empty in Hs. by injection Hs as <-.
Qed.

Lemma flake_check_words tpl sb :
  ∃ s, details_get (details (_run_flake_check tpl sb)) "suggestion" = VStr s
       ∧ plain_words s.
Proof.
  destruct (subprocess_run tpl flake_check_cmd sb) as [rc out err| |e] eqn:H;
    unfold_flake_check H; try (by exists EmptyString).
  destruct (negb (rc =? 0)%Z); [|by exists EmptyString].
  repeat match goal with
         | |- context [if ?b then _ else _] => destruct b
         end; by eexists.
Qed.

Lemma run_checks_words w self tpl :
  Forall (λ t, ∃ s, details_get (details t) "suggestion" = VStr s
                    ∧ plain_words s)
         (run_checks w self tpl).
Proof.
  assert (∀ t, details_get (details t) "suggestion" = VStr "" →
               ∃ s, details_get (details t) "suggestion" = VStr s
                    ∧ plain_words s) as Hempty
    by (intros t Ht; by exists EmptyString).
  pose proof (Hempty _ (url_check_suggestion tpl)) as Hurl.
  destruct (run_checks_shapes w self tpl)
    as [[e ->]|[[msg ->]|[(msg & e & ->)|(sb & last & tail & -> & Hl & Ht)]]].
  - repeat apply Forall_cons_2; auto.
  - repeat apply Forall_cons_2; auto.
  - repeat apply Forall_cons_2; auto.
  - assert (details_get (details last) "suggestion" = VStr "") as Hlast.
    { destruct Hl as [[_ ->]|[_ ->]]; [|done]. apply outputs_check_suggestion. }
    pose proof (flake_check_words tpl sb) as Hfc.
    destruct Ht as [->|[e ->]]; cbn [app]; repeat apply Forall_cons_2; auto.
Qed.

Lemma critical_cross t s :
  details_get (details t) "suggestion" = VStr s → plain_words s →
  icon_of t s = Cli.CrossMark ↔ critical t.
Proof.
  intros Hs Hw. unfold icon_of, critical. rewrite (tolerated_textual t s Hs).
  unfold plain_words in Hw. rewrite Hw.
  destruct (status t); try (split; [done|by intros [? _]]).
  destruct (contains "local path replacement" s),
           (contains "local path issue" s); cbn [orb];
    split; try done; try (intros [_ Hn]; destruct Hn; auto).
  intros _. split; [done|]. by intros [?|?].
Qed.

(** X21.  For a template whose directory exists, the text format finds an
    icon for every test, and the icon of the template is the check mark
    exactly when no test has the cross mark: failures shown with the
    warning sign do not fail the template. *)
Theorem icons_agree w self n tpl :
  template_at w self n = Some tpl →
  ∃ r icons,
    validate_template w self n = Ok r
    ∧ Cli.render r = Ok (Cli.status_icon r, icons)
    ∧ length icons = length (tests r)
    ∧ (Cli.status_icon r = Cli.CheckMark ↔ Cli.CrossMark ∉ icons).
Proof.
  intros Hat.
  destruct (validate_template_found w self n tpl Hat)
    as (st & -> & Hst & Hcrit).
  pose proof (run_checks_words w self tpl) as Hwords.
  set (ts := run_checks w self tpl) in *. clearbody ts.
  assert (∃ icons,
            mapM Cli.test_icon ts = Ok icons
            ∧ length icons = length ts
            ∧ (Cli.CrossMark ∈ icons ↔ ∃ t, t ∈ ts ∧ critical t))
    as (icons & Hicons & Hlen & Hcross).
  { clear Hcrit. induction Hwords as [|t ts (s & Hs & Hw) _ IH].
    - exists []. split_and!; [done..|]. rewrite elem_of_nil.
      split; [done|]. intros (t & Ht & _). by apply elem_of_nil in Ht.
    - destruct IH as (icons & Hicons & Hlen & Hcross).
      exists (icon_of t s :: icons). split_and!.
      + cbn [mapM]. rewrite (test_icon_spec t s Hs). cbn [mbind result_bind].
        change ((fix go (l0 : list TestResult) : result (list Cli.icon) :=
             match l0 with
             | [] => mret []
             | x0 :: l1 =>
                 Cli.test_icon x0 ≫= λ y, go l1 ≫= λ k, mret (y :: k)
             end) ts) with (mapM Cli.test_icon ts).
        by rewrite Hicons.
      + simpl. by rewrite Hlen.
      + rewrite elem_of_cons, Hcross. split.
        * intros [Heq|(t' & Ht' & Hc)].
          -- exists t. split; [left|]. by apply (critical_cross t s Hs Hw).
          -- exists t'. split; [by right|done].
        * intros (t' & Ht' & Hc). apply elem_of_cons in Ht' as [->|Ht'].
          -- left. symmetry. by apply (critical_cross t s Hs Hw).
          -- right. by exists t'. }
  exists (mkTemplateValidationResult n st ts None), icons.
  split; [done|]. unfold Cli.render. cbn [tests] in *.
  rewrite Hicons. cbn [mbind result_bind]. split_and!; [done|done|].
  unfold Cli.status_icon. cbn [overall_status]. rewrite Hcross, <-Hcrit.
  destruct Hst as [-> | ->]; by split.
Qed.

Lemma icons_agree_witness :
  ∃ r icons,
    validate_template (world_with two_packages) example_validator "broken"
      = Ok r
    ∧ Cli.render r = Ok (Cli.status_icon r, icons)
    ∧ length icons = length (tests r)
    ∧ (Cli.status_icon r = Cli.CheckMark ↔ Cli.CrossMark ∉ icons).
Proof.
  apply (icons_agree (world_with two_packages) example_validator "broken"
           mkFlake_template).
  vm_compute. reflexivity.
Defined.

(** *** The exit status of [main] *)

Lemma render_returns r :
  Forall textual (tests r) →
  Cli.render r
  = Ok (Cli.status_icon r, map (λ t, icon_of t (suggestion_text t)) (tests r)).
Proof.
  intros Ht. unfold Cli.render.
  rewrite (mapM_result Cli.test_icon (λ t, icon_of t (suggestion_text t))).
  - done.
  - eapply Forall_impl; [exact Ht|]. intros t [s Hs].
    unfold suggestion_text. rewrite Hs. by apply test_icon_spec.
Qed.

Lemma text_report_returns (results : gmap string TemplateValidationResult) :
  (∀ n r, results !! n = Some r → Forall textual (tests r)) →
  ∃ blocks, Cli.text_report results = Ok blocks.
Proof.
  intros Ht. unfold Cli.text_report. eexists.
  apply (mapM_result _
           (λ item : string * TemplateValidationResult,
              (item.1, (Cli.status_icon item.2,
                        map (λ t, icon_of t (suggestion_text t))
                            (tests item.2))))).
  apply Forall_forall. intros [n r] Hin.
  apply list_elem_of_In, filter_In in Hin as [Hin _].
  apply list_elem_of_In, elem_of_map_to_list in Hin. cbn [fst snd].
  by rewrite (render_returns r (Ht n r Hin)).
Qed.

Lemma filter_length_le {A} (f : A → bool) (l : list A) :
  length (List.filter f l) ≤ length l.
Proof. induction l as [|x l IH]; simpl; [lia|]. destruct (f x); simpl; lia. Qed.

Lemma filter_length_all {A} (f : A → bool) (l : list A) :
  length (List.filter f l) = length l ↔ Forall (λ x, f x = true) l.
Proof.
  induction l as [|x l IH]; simpl.
  - split; [constructor|done].
  - pose proof (filter_length_le f l). destruct (f x) eqn:E; simpl.
    + rewrite Forall_cons. split.
      * intros H'. split; [done|]. apply IH. lia.
      * intros [_ H']. apply IH in H'. lia.
    + split; [lia|]. intros [? _]%Forall_cons. congruence.
Qed.

Lemma filter_length_lt {A} (f : A → bool) (l : list A) :
  length (List.filter f l) < length l → ∃ x, x ∈ l ∧ f x = false.
Proof.
  induction l as [|x l IH]; simpl; [lia|].
  destruct (f x) eqn:E; simpl; intros H.
  - destruct IH as (y & Hy & Hf); [lia|]. exists y. split; [by right|done].
  - exists x. split; [left|done].
Qed.

(** The exit status of the text format, from the two numbers of the
    summary, when no result bears the name [error]: 0 when every result
    passed, 1 when some result did not. *)
Lemma text_exit_status (results : gmap string TemplateValidationResult) :
  (∀ n r, results !! n = Some r → template_name r ≠ "error") →
  let code := if Cli.passed_templates results <? Cli.total_templates results
              then 1%Z else 0%Z in
  (code = 0%Z ∧ ∀ n r, results !! n = Some r → overall_status r = PASSED)
  ∨ (code = 1%Z ∧ ∃ n r, results !! n = Some r ∧ overall_status r ≠ PASSED).
Proof.
  intros Hname. cbv zeta. unfold Cli.passed_templates, Cli.total_templates.
  set (l := (map_to_list results).*2).
  assert (∀ r, r ∈ l ↔ ∃ n, results !! n = Some r) as Hl.
  { intros r. unfold l. rewrite list_elem_of_fmap. split.
    - intros ([n r'] & -> & Hin). exists n. by apply elem_of_map_to_list.
    - intros [n Hn]. exists (n, r). split; [done|]. by apply elem_of_map_to_list. }
  assert (List.filter
            (λ r, negb (String.eqb (template_name r) "error")) l = l) as ->.
  { apply forallb_filter_id, forallb_forall. intros r Hr%list_elem_of_In.
    apply Hl in Hr as [n Hn]. apply negb_true_iff, String.eqb_neq.
    by apply (Hname n r). }
  fold passed. pose proof (filter_length_le passed l) as Hle.
  destruct (Nat.ltb_spec (length (List.filter passed l)) (length l)) as [Hlt|Hge].
  - right. split; [done|].
    destruct (filter_length_lt passed l Hlt) as (r & Hr & Hf).
    apply Hl in Hr as [n Hn]. exists n, r. split; [done|].
    unfold passed in Hf. by destruct (overall_status r).
  - left. split; [done|]. intros n r Hn.
    assert (Forall (λ r, passed r = true) l) as Hf
      by (apply filter_length_all; lia).
    rewrite Forall_forall in Hf.
    assert (passed r = true) as Hr by (apply Hf, Hl; by exists n).
    unfold passed in Hr. by destruct (overall_status r).
Qed.


(** X18.  In the text format, a batch that ends in the synthetic error
    entry (no templates directory, or no template in it) gives the exit
    status 0. *)
Theorem main_synthetic_error_exit_status w dir root results :
  validate_all_templates w (TemplateValidator.mk dir root) = Ok results →
  synthetic_error results →
  Cli.main w (Cli.mkNamespace dir root Cli.TextFormat None) = Ok 0%Z.
Proof.
  intros Hres [msg ->]. unfold Cli.main, Cli.main_results.
  cbn [Cli.template Cli.templates_dir Cli.project_root Cli.format].
  rewrite Hres. cbn [mbind result_bind].
  unfold Cli.text_report, Cli.total_templates, Cli.passed_templates.
  rewrite map_to_list_singleton. reflexivity.
Qed.

Lemma main_synthetic_error_exit_status_witness :
  Cli.main (world_with two_packages)
    (Cli.mkNamespace "/nowhere" "/repo" Cli.TextFormat None) = Ok 0%Z.
Proof.
  eapply (main_synthetic_error_exit_status (world_with two_packages)
            "/nowhere" "/repo").
  - vm_compute. reflexivity.
  - eexists. reflexivity.
Defined.



(** [--template simple/] names the directory of [simple], which passes;
    a name with nothing at its path gives the exit status 1. *)
Example main_template_by_path :
  let run n := Cli.main (world_with two_packages)
                 (Cli.mkNamespace "/repo/templates" "/repo" Cli.TextFormat
                    (Some n)) in
  run "simple/" = Ok 0%Z ∧ run "./simple" = Ok 0%Z ∧ run "simple/x" = Ok 1%Z.
Proof. by vm_compute. Qed.

(** X20.  In the text format without [--template], over a templates
    directory that has templates, none of them named [error]: the exit
    status is 0 when every template passes overall, and 1 when some
    template does not. *)
Theorem main_batch_exit_status w dir root entries :
  listdir w dir = DirectoryOf entries →
  (∃ n, non_hidden_subdirectory entries n) →
  ¬ non_hidden_subdirectory entries "error" →
  ∃ results,
    validate_all_templates w (TemplateValidator.mk dir root) = Ok results
    ∧ let exit_status :=
        Cli.main w (Cli.mkNamespace dir root Cli.TextFormat None) in
      (exit_status = Ok 0%Z
       ∧ ∀ n r, results !! n = Some r → overall_status r = PASSED)
      ∨ (exit_status = Ok 1%Z
         ∧ ∃ n r, results !! n = Some r ∧ overall_status r ≠ PASSED).
Proof.
  intros Hdir Hsome Herr.
  destruct (validate_all_templates_spec w (TemplateValidator.mk dir root))
    as [_ Hspec].
  destruct (Hspec entries Hdir Hsome) as (results & Hres & Hkeys & Hvals).
  exists results. split; [done|]. cbv zeta.
  unfold Cli.main, Cli.main_results.
  cbn [Cli.template Cli.templates_dir Cli.project_root Cli.format].
  rewrite Hres. cbn [mbind result_bind].
  destruct (text_report_returns results) as [blocks ->].
  { intros n r Hr. eapply validate_template_textual. by apply Hvals. }
  cbn [mbind result_bind].
  destruct (text_exit_status results) as [[-> Hp]|[-> Hp]]; auto.
  intros n r Hr. rewrite (validate_template_name _ _ _ _ (Hvals n r Hr)).
  intros ->. apply Herr, Hkeys. by eexists.
Qed.

Lemma main_batch_exit_status_witness :
  ∃ results,
    validate_all_templates (world_with two_packages)
      (TemplateValidator.mk "/repo/templates" "/repo") = Ok results
    ∧ let exit_status :=
        Cli.main (world_with two_packages)
          (Cli.mkNamespace "/repo/templates" "/repo" Cli.TextFormat None) in
      (exit_status = Ok 0%Z
       ∧ ∀ n r, results !! n = Some r → overall_status r = PASSED)
      ∨ (exit_status = Ok 1%Z
         ∧ ∃ n r, results !! n = Some r ∧ overall_status r ≠ PASSED).
Proof.
  apply (main_batch_exit_status (world_with two_packages) "/repo/templates"
           "/repo" example_listing).
  - reflexivity.
  - exists "simple". split; [by eexists|reflexivity].
  - intros [[tpl Htpl] _]. vm_compute in Htpl. discriminate Htpl.
Defined.

(** A template named [error] does not count: validated alone in the text
    format it gives the exit status 0 even when it fails. *)
Example main_template_named_error :
  let w := mkWorld (λ _, DirectoryOf {[ "error" := Directory empty_template ]})
             (λ _, Ok JNull)
             (stat_of {[ "error" := Directory empty_template ]}) in
  (∃ r, validate_template w example_validator "error" = Ok r
        ∧ overall_status r = FAILED)
  ∧ Cli.main w (Cli.mkNamespace "/repo/templates" "/repo" Cli.TextFormat
                  (Some "error")) = Ok 0%Z.
Proof. split; [eexists; split|]; vm_compute; reflexivity. Qed.
End Extras.
